(** * jquery.accordion.js: a shallow embedding of the accordion plugin

    The plugin file [src/jquery.accordion.js] is embedded function by
    function.  The JavaScript values it handles, the part of jQuery it calls
    ([find], [closest], [data], [addClass], [removeClass], [on], the four
    rendering calls) and the element tree are modelled first; the plugin's own
    functions follow, under their source names. *)

From Stdlib Require Import ZArith List Bool Ascii.
From stdpp Require Import base option list gmap strings pretty.

(** ** JavaScript values *)

Module JS.

(** The values that can reach the plugin: what [.data()] can hold and what
    the configuration object can contain.  Numbers are restricted to the
    integers and NaN; objects and functions are opaque references. *)
Inductive value :=
| Undefined
| Null
| Bool (b : bool)
| Num (z : Z)
| NaN
| Str (s : string)
| Obj (ref : nat)
| Fun (ref : nat).

#[global] Instance value_eq_dec : EqDecision value.
Proof. solve_decision. Defined.

(** [!!v] *)
Definition truthy (v : value) : bool :=
  match v with
  | Undefined | Null | NaN => false
  | Bool b => b
  | Num z => negb (z =? 0)%Z
  | Str s => negb (String.eqb s "")
  | Obj _ | Fun _ => true
  end.

(** [a === b] *)
Definition strict_eq (a b : value) : bool :=
  match a, b with
  | Undefined, Undefined => true
  | Null, Null => true
  | Bool x, Bool y => Bool.eqb x y
  | Num x, Num y => (x =? y)%Z
  | Str x, Str y => String.eqb x y
  | Obj x, Obj y => Nat.eqb x y
  | Fun x, Fun y => Nat.eqb x y
  | _, _ => false
  end.

(** [typeof v] *)
Definition typeof (v : value) : string :=
  match v with
  | Undefined => "undefined"
  | Null | Obj _ => "object"
  | Bool _ => "boolean"
  | Num _ | NaN => "number"
  | Str _ => "string"
  | Fun _ => "function"
  end.

(** The property key a value denotes in [obj[v]].  Integers print in
    decimal, as JavaScript prints them below 1e21; a function stands for its
    source text, which is not modelled. *)
Definition to_property_key (v : value) : string :=
  match v with
  | Undefined => "undefined"
  | Null => "null"
  | Bool true => "true"
  | Bool false => "false"
  | Num z => pretty z
  | NaN => "NaN"
  | Str s => s
  | Obj _ => "[object Object]"
  | Fun _ => "function () { [native code] }"
  end.

(** An ordinary object, as a finite map from the names of its own
    properties. *)
Abbreviation object := (gmap string value).

(** The methods every ordinary object inherits from [Object.prototype], each
    with the reference of its function. *)
Definition inherited_methods : list (string * nat) :=
  [ ("constructor", 100); ("hasOwnProperty", 101); ("isPrototypeOf", 102);
    ("propertyIsEnumerable", 103); ("toLocaleString", 104);
    ("toString", 105); ("valueOf", 106); ("__defineGetter__", 107);
    ("__defineSetter__", 108); ("__lookupGetter__", 109);
    ("__lookupSetter__", 110) ].

(** The reference of [Object.prototype] itself. *)
Definition object_prototype_ref : nat := 99.

(** [obj.k] and [obj[k]]: an own property, else an inherited one, else
    [undefined]. *)
Definition get_prop (o : object) (k : string) : value :=
  match o !! k with
  | Some v => v
  | None =>
      match List.find (fun m => String.eqb (fst m) k) inherited_methods with
      | Some m => Fun (snd m)
      | None =>
          if String.eqb k "__proto__" then Obj object_prototype_ref
          else Undefined
      end
  end.

(** How a statement sequence ends: normally with a value, or by [throw]. *)
Inductive completion (A : Type) :=
| Normal (a : A)
| Throw (v : value).
Arguments Normal {A} a.
Arguments Throw {A} v.

End JS.

Import JS.

(** ** The element tree *)

(** An element: its identity, the names of its attributes, its children in
    document order. *)
#[warnings="-register-all"]
Inductive Node :=
| Elem (id : nat) (attrs : list string) (children : list Node).

Definition node_id (e : Node) : nat := let 'Elem i _ _ := e in i.
Definition node_attrs (e : Node) : list string := let 'Elem _ a _ := e in a.
Definition node_children (e : Node) : list Node := let 'Elem _ _ c := e in c.

(** Proper descendants of an element, in document order. *)
Fixpoint descendants (e : Node) : list Node :=
  match e with
  | Elem _ _ cs => flat_map (fun c => c :: descendants c) cs
  end.

(** Every element of the document, in document order. *)
Definition all_nodes (doc : Node) : list Node := doc :: descendants doc.

(** The first result a function gives along a list. *)
Definition first_some {A B} (f : A → option B) : list A → option B :=
  fix go (l : list A) : option B :=
    match l with
    | [] => None
    | a :: l' =>
        match f a with
        | Some b => Some b
        | None => go l'
        end
    end.

(** The chain from the element [target] up to the root of [e], the element
    itself first, when [target] lies in the subtree of [e]: the walk
    [cur = cur.parentNode] of jQuery's [closest]. *)
Fixpoint chain_to (target : nat) (e : Node) : option (list Node) :=
  match e with
  | Elem i _ cs =>
      if Nat.eqb i target then Some [e]
      else
        match first_some (chain_to target) cs with
        | Some p => Some (p ++ [e])
        | None => None
        end
  end.

Definition ancestors_or_self (doc : Node) (n : nat) : list Node :=
  default [] (chain_to n doc).

(** Identities of the proper ancestors of [n], nearest first. *)
Definition ancestor_ids (doc : Node) (n : nat) : list nat :=
  node_id <$> tail (ancestors_or_self doc n).

(** The selectors the plugin builds are attribute-presence selectors
    ['[name]']. *)
Definition matches (sel : string) (e : Node) : bool :=
  existsb (fun a => String.eqb sel ("[" +:+ a +:+ "]")) (node_attrs e).

(** ** The page: the tree and what jQuery keeps per element *)

Inductive Render :=
| Show0            (* .show(0) *)
| Hide0            (* .hide(0) *)
| StopSlideDown    (* .stop().slideDown('fast') *)
| StopSlideUp.     (* .stop().slideUp('fast') *)

#[global] Instance Render_eq_dec : EqDecision Render.
Proof. solve_decision. Defined.

Record Page := mkPage {
  doc : Node;
  (* what [.data(key)] reads on each element: the values stored by
     [.data(key, v)] and those given by [data-*] attributes *)
  store : gmap nat (gmap string value);
  (* the class list of each element *)
  classes : gmap nat (list string);
  (* how many click handlers of the plugin are bound to each element *)
  handlers : gmap nat nat;
  (* the rendering calls issued so far, oldest first *)
  rendered : list (nat * Render)
}.

Definition data_of (p : Page) (n : nat) (key : string) : value :=
  default Undefined (store p !! n ≫= (.!! key)).

Definition classes_of (p : Page) (n : nat) : list string :=
  default [] (classes p !! n).

Definition handlers_of (p : Page) (n : nat) : nat :=
  default 0 (handlers p !! n).

(** [coll.each(...)] over a per-element table: the entry of every element
    of the collection is rewritten by [g], an absent entry counting as [d]. *)
Definition update_each {V} (d : V) (g : V → V) (coll : list nat)
    (m : gmap nat V) : gmap nat V :=
  foldr (fun n acc => <[n := g (default d (acc !! n))]> acc) m coll.

(** ** The jQuery calls the plugin makes

    A jQuery collection is the list of the identities of its elements. *)
Module jQuery.

(** [$(roots).find(sel)]: the proper descendants of any root that match,
    without duplicates, in document order. *)
Definition find (p : Page) (roots : list nat) (sel : string) : list nat :=
  node_id <$>
    List.filter
      (fun e => matches sel e &&
                existsb (fun r => bool_decide
                                    (r ∈ ancestor_ids (doc p) (node_id e)))
                        roots)
      (all_nodes (doc p)).

(** [$(elem).closest(sel)]: the first element matching on the walk from
    [elem] upwards, [elem] included; empty when there is none. *)
Definition closest (p : Page) (elem : nat) (sel : string) : list nat :=
  match List.find (matches sel) (ancestors_or_self (doc p) elem) with
  | Some e => [node_id e]
  | None => []
  end.

(** [$(sel)]: every element of the document that matches. *)
Definition select (p : Page) (sel : string) : list nat :=
  node_id <$> List.filter (matches sel) (all_nodes (doc p)).

(** [coll.data(key)]: the value held by the first element; [undefined]
    on an empty collection or when nothing is held. *)
Definition data (p : Page) (coll : list nat) (key : string) : value :=
  match coll with
  | [] => Undefined
  | n :: _ => data_of p n key
  end.

(** [coll.data(key, v)]: stores [v] on every element; a call with
    [undefined] stores nothing. *)
Definition set_data (coll : list nat) (key : string) (v : value) (p : Page)
  : Page :=
  match v with
  | Undefined => p
  | _ =>
      mkPage (doc p)
        (update_each ∅ (fun held => <[key := v]> held) coll (store p))
        (classes p) (handlers p) (rendered p)
  end.

Definition add_class (cls : string) (l : list string) : list string :=
  if bool_decide (cls ∈ l) then l else l ++ [cls].

Definition remove_class (cls : string) (l : list string) : list string :=
  filter (fun c => c ≠ cls) l.

Definition map_classes (f : list string → list string) (coll : list nat)
    (p : Page) : Page :=
  mkPage (doc p) (store p)
    (update_each [] f coll (classes p))
    (handlers p) (rendered p).

(** [coll.addClass(cls)] *)
Definition addClass (coll : list nat) (cls : string) : Page → Page :=
  map_classes (add_class cls) coll.

(** [coll.removeClass(cls)] *)
Definition removeClass (coll : list nat) (cls : string) : Page → Page :=
  map_classes (remove_class cls) coll.

(** A rendering call on every element of the collection. *)
Definition render (coll : list nat) (r : Render) (p : Page) : Page :=
  mkPage (doc p) (store p) (classes p) (handlers p)
    (rendered p ++ ((fun n => (n, r)) <$> coll)).

(** [coll.on('click', handler)]: one more handler on every element. *)
Definition on_click (coll : list nat) (p : Page) : Page :=
  mkPage (doc p) (store p) (classes p)
    (update_each 0 S coll (handlers p))
    (rendered p).

End jQuery.

(** ** The plugin *)

(** The [config] object of the plugin. *)
Record Config := mkConfig {
  data_container : string;
  data_trigger : string;
  data_content : string;
  data_content_state : string;
  states : object
}.

(** The literal the source declares. *)
Definition config : Config :=
  {| data_container := "js-accordion";
     data_trigger := "js-accordion-trigger";
     data_content := "js-accordion-content";
     data_content_state := "js-accordion-content-state";
     states := <["visible" := Str "visible"]>
                 (<["collapsed" := Str "collapsed"]>
                    (<["default" := Str "collapsed"]> ∅)) |}.

(** The click event, as far as the handler touches it. *)
Record Event := mkEvent { defaultPrevented : bool }.

Definition preventDefault (ev : Event) : Event := mkEvent true.

(** What a run of the click handler leaves behind. *)
Record Outcome := mkOutcome {
  page_after : Page;
  event_after : Event;
  result : completion value
}.

Section Plugin.

(** The functions below close over the configuration, as in the source. *)
Variable cfg : Config.

Definition toDataSelector (dataName : string) : string :=
  "[data-" +:+ dataName +:+ "]".

Definition getTrigger (p : Page) (element : list nat) : list nat :=
  jQuery.find p element (toDataSelector (data_trigger cfg)).

Definition getContent (p : Page) (element : list nat) : list nat :=
  jQuery.find p element (toDataSelector (data_content cfg)).

Definition getDefaultState : completion value :=
  let state :=
    get_prop (states cfg) (to_property_key (get_prop (states cfg) "default"))
  in
  if negb (truthy state)
  then Throw (Str "No default state found for accordion.")
  else Normal state.

Definition getState (p : Page) (element : list nat) : completion value :=
  let state := jQuery.data p element (data_content_state cfg) in
  if truthy state then Normal state else getDefaultState.

Definition getElement (p : Page) (elem : nat) : list nat :=
  jQuery.closest p elem (toDataSelector (data_container cfg)).

Definition isCollapsed (state : value) : bool :=
  strict_eq state (get_prop (states cfg) "collapsed").

Definition isVisible (state : value) : bool :=
  strict_eq state (get_prop (states cfg) "visible").

Definition setVisible (element : list nat) (initial : bool) (p : Page)
  : Page :=
  let p1 := jQuery.set_data element (data_content_state cfg)
              (get_prop (states cfg) "visible") p in
  let p2 := jQuery.removeClass element "is-accordion--collapsed" p1 in
  if initial
  then jQuery.render (getContent p2 element) Show0 p2
  else jQuery.render (getContent p2 element) StopSlideDown p2.

Definition setCollapsed (element : list nat) (initial : bool) (p : Page)
  : Page :=
  let p1 := jQuery.set_data element (data_content_state cfg)
              (get_prop (states cfg) "collapsed") p in
  let p2 := jQuery.addClass element "is-accordion--collapsed" p1 in
  if initial
  then jQuery.render (getContent p2 element) Hide0 p2
  else jQuery.render (getContent p2 element) StopSlideUp p2.

Definition setDefault (elements : list nat) (p : Page) : Page :=
  let state := get_prop (states cfg) "default" in
  if isCollapsed state then setCollapsed elements true p
  else if isVisible state then setVisible elements true p
  else p.

(** The handler bound to every trigger; [this] is the trigger clicked.
    [setVisible(parent)] and [setCollapsed(parent)] leave [initial]
    undefined, which is falsy. *)
Definition click_handler (this : nat) (ev : Event) (p : Page) : Outcome :=
  let ev1 := preventDefault ev in
  let parent := getElement p this in
  match getState p parent with
  | Throw v => mkOutcome p ev1 (Throw v)
  | Normal state =>
      if isCollapsed state
      then mkOutcome (setVisible parent false p) ev1 (Normal (Bool false))
      else if isVisible state
      then mkOutcome (setCollapsed parent false p) ev1 (Normal (Bool false))
      else mkOutcome p ev1 (Normal (Bool false))
  end.

(** [$.fn.accordion], called on the collection [self]. *)
Definition accordion (self : list nat) (p : Page) : Page :=
  let elements := self in
  let p1 := setDefault elements p in
  let p2 := jQuery.addClass elements "is-accordion" p1 in
  let p3 := jQuery.addClass (getContent p2 elements) "is-accordion-content"
              p2 in
  let triggers := getTrigger p3 elements in
  let p4 := jQuery.addClass triggers "is-accordion-trigger" p3 in
  jQuery.on_click triggers p4.

End Plugin.

(** jQuery running the handlers bound to one element [this] for a click:
    they run in turn, each on the page the previous one left; a handler that
    throws ends the run.  ([return false] stops the event from reaching the
    ancestors, not the other handlers of the element.) *)
Fixpoint dispatch (cfg : Config) (bound : nat) (this : nat) (ev : Event)
    (p : Page) : Outcome :=
  match bound with
  | 0 => mkOutcome p ev (Normal Undefined)
  | S bound' =>
      let o := click_handler cfg this ev p in
      match result o, bound' with
      | Throw _, _ => o
      | Normal _, 0 => o
      | Normal _, S _ => dispatch cfg bound' this (event_after o) (page_after o)
      end
  end.

(** The element whose handlers a click on [target] runs.  The event starts
    at [target] and bubbles up through its ancestors; the first element on
    the way with handlers of the plugin bound runs them, and since each of
    them returns [false] or throws, the event goes no further. *)
Definition bubble_target (p : Page) (target : nat) : option nat :=
  node_id <$>
    List.find (fun e => Nat.ltb 0 (handlers_of p (node_id e)))
              (ancestors_or_self (doc p) target).

(** A click on the element [target]. *)
Definition click (cfg : Config) (target : nat) (ev : Event) (p : Page)
  : Outcome :=
  match bubble_target p target with
  | Some this => dispatch cfg (handlers_of p this) this ev p
  | None => mkOutcome p ev (Normal Undefined)
  end.

(** [n] clicks on [target], one after the other. *)
Definition clicks (cfg : Config) (target : nat) (n : nat) (p : Page) : Page :=
  Nat.iter n (fun q => page_after (click cfg target (mkEvent false) q)) p.

(** jQuery camel-cases data keys (a hyphen before a letter is dropped and
    the letter capitalized), so two keys can name one datum.  [datum_name]
    drops every hyphen and lowers every capital: keys with different
    [datum_name]s are different data whichever letters that rule
    capitalizes. *)
Definition lower_ascii (a : ascii) : ascii :=
  let n := nat_of_ascii a in
  if Nat.leb 65 n && Nat.leb n 90 then ascii_of_nat (n + 32) else a.

Fixpoint datum_name (key : string) : string :=
  match key with
  | EmptyString => EmptyString
  | String a rest =>
      if Ascii.eqb a "-" then datum_name rest
      else String (lower_ascii a) (datum_name rest)
  end.

(** The callback registered for document-ready. *)
Definition on_ready (p : Page) : Page :=
  accordion config (jQuery.select p "[data-js-accordion]") p.

(** ** Loading the script *)

(** The part of [window] the script reads and writes: the value of
    [window.jQuery], the own properties of [window.jQuery.fn] when that is an
    object, and how many document-ready callbacks the script has handed to
    jQuery. *)
Record Window := mkWindow {
  w_jQuery : value;
  w_fn : option object;
  w_ready : nat
}.

(** The error of reading a property of [undefined]. *)
Definition TypeError : value := Obj 0.

(** The reference of the function stored under [jQuery.fn.accordion]. *)
Definition accordion_ref : nat := 1.

(** The top level of the script, run against a window. *)
Definition load (w : Window) : Window * completion unit :=
  if negb (String.eqb (typeof (w_jQuery w)) "function")
  then (w, Throw (Str "jQuery is not defined, silly!"))
  else
    match w_fn w with
    | None => (w, Throw TypeError)
    | Some fn =>
        if String.eqb (typeof (get_prop fn "accordion")) "function"
        then (w, Throw (Str
                "The jQuery plugin namespace 'accordion' is already taken!"))
        else
          (mkWindow (w_jQuery w)
                    (Some (<["accordion" := Fun accordion_ref]> fn))
                    (S (w_ready w)),
           Normal tt)
    end.

(** ** Running the page *)

(** Loading the page: the script runs; when it completes, jQuery later calls
    the document-ready callback it was handed.  A function found under
    [window.jQuery] is taken to be jQuery. *)
Definition boot (w : Window) (p : Page) : Window * Page * completion unit :=
  match load w with
  | (w', Throw v) => (w', p, Throw v)
  | (w', Normal _) => (w', on_ready p, Normal tt)
  end.

(** One run of the click handler on the trigger [this], keeping the page. *)
Definition activate (cfg : Config) (this : nat) (p : Page) : Page :=
  page_after (click_handler cfg this (mkEvent false) p).

(** What can change a container's state: a call of the plugin on a
    collection, and a run of the click handler on a trigger. *)
Inductive Op :=
| Init (elements : list nat)
| Click (this : nat).

Definition step (cfg : Config) (p : Page) (op : Op) : Page :=
  match op with
  | Init elements => accordion cfg elements p
  | Click this => activate cfg this p
  end.

Definition run (cfg : Config) (ops : list Op) (p : Page) : Page :=
  foldl (step cfg) p ops.

(** The marker class of a container agrees with its persisted state. *)
Definition marker_agrees (cfg : Config) (p : Page) (c : nat) : Prop :=
  "is-accordion--collapsed" ∈ classes_of p c
  ↔ data_of p c (data_content_state cfg) = get_prop (states cfg) "collapsed".

(** The value that is not [s], of the two state values. *)
Definition other_state (cfg : Config) (s : value) : value :=
  if decide (s = get_prop (states cfg) "collapsed")
  then get_prop (states cfg) "visible"
  else get_prop (states cfg) "collapsed".

(** A list of elements in which each one is a child of the next. *)
Inductive parent_chain : list Node → Prop :=
| parent_chain_one e : parent_chain [e]
| parent_chain_cons x y l :
    x ∈ node_children y → parent_chain (y :: l) →
    parent_chain (x :: y :: l).

(** Induction over the tree, with the hypothesis on every child. *)
Definition Node_induction (P : Node → Prop)
    (step : ∀ i a cs, Forall P cs → P (Elem i a cs)) : ∀ e, P e :=
  fix go (e : Node) : P e :=
    match e with
    | Elem i a cs =>
        step i a cs
          ((fix all (l : list Node) : Forall P l :=
              match l with
              | [] => @List.Forall_nil Node P
              | c :: l' => @List.Forall_cons Node P c l' (go c) (all l')
              end) cs)
    end.

(** ** A sample page *)

Module Sample.

(** Two sibling accordions under a root, each with a trigger and a
    content element. *)
Definition document : Node :=
  Elem 0 []
    [ Elem 1 ["data-js-accordion"]
        [ Elem 2 ["href"; "data-js-accordion-trigger"] [];
          Elem 3 ["data-js-accordion-content"] [] ];
      Elem 4 ["data-js-accordion"]
        [ Elem 5 ["data-js-accordion-trigger"] [];
          Elem 6 ["data-js-accordion-content"] [] ] ].

Definition page : Page := mkPage document ∅ ∅ ∅ [].

(** A configuration whose default key names no state. *)
Definition bad_config : Config :=
  mkConfig "js-accordion" "js-accordion-trigger" "js-accordion-content"
    "js-accordion-content-state"
    (<["visible" := Str "visible"]>
       (<["collapsed" := Str "collapsed"]>
          (<["default" := Str "open"]> ∅))).

(** The sample page once the document-ready callback has run. *)
Definition ready : Page := on_ready page.

(** The first accordion holds the empty string as its state. *)
Definition page_empty_state : Page :=
  mkPage document {[ 1 := {[ "js-accordion-content-state" := Str "" ]} ]}
         ∅ ∅ [].

(** The first accordion holds a value that names no state. *)
Definition page_odd_state : Page :=
  mkPage document {[ 1 := {[ "js-accordion-content-state" := Str "open" ]} ]}
         {[ 1 := ["is-accordion"] ]} {[ 2 := 1 ]} [].

(** An accordion with neither trigger nor content. *)
Definition bare_page : Page :=
  mkPage (Elem 0 [] [Elem 1 ["data-js-accordion"] [Elem 2 [] []]])
         ∅ ∅ ∅ [].

Definition window_without_jQuery : Window := mkWindow Undefined None 0.

Definition window_with_accordion : Window :=
  mkWindow (Fun 7) (Some {[ "accordion" := Fun 9 ]}) 0.

Definition window_fresh : Window := mkWindow (Fun 7) (Some ∅) 0.

End Sample.

(** ** Further pages and configurations *)

(** The identities of the elements of a document are pairwise distinct. *)
Definition distinct_ids (d : Node) : Prop :=
  NoDup (node_id <$> all_nodes d).

Module Scenes.

(** The state values renamed, the keys kept: the default key still resolves,
    to ['closed']. *)
Definition renamed_config : Config :=
  mkConfig "js-accordion" "js-accordion-trigger" "js-accordion-content"
    "js-accordion-content-state"
    (<["visible" := Str "open"]>
       (<["collapsed" := Str "closed"]>
          (<["default" := Str "collapsed"]> ∅))).

(** A trigger outside any accordion; the document has no accordion. *)
Definition orphan_page : Page :=
  mkPage (Elem 0 [] [Elem 1 ["data-js-accordion-trigger"] []])
         ∅ {[ 1 := ["button"] ]} ∅ [(1, Show0)].

(** The sample document, whose first accordion carries a class and a datum
    of its author's. *)
Definition authored_page : Page :=
  mkPage Sample.document
         {[ 1 := {[ "owner" := Str "menu" ]} ]}
         {[ 1 := ["panel"] ]} ∅ [].

(** An accordion nested in the content of another. *)
Definition nested_page : Page :=
  mkPage
    (Elem 0 []
       [ Elem 1 ["data-js-accordion"]
           [ Elem 2 ["data-js-accordion-trigger"] [];
             Elem 3 ["data-js-accordion-content"]
               [ Elem 4 ["data-js-accordion"]
                   [ Elem 5 ["data-js-accordion-trigger"] [];
                     Elem 6 ["data-js-accordion-content"] [] ] ] ] ])
    ∅ ∅ ∅ [].

End Scenes.


(** * Properties *)

(** ** Per-element tables *)

Section UpdateEach.
Context {V : Type} (d : V) (g : V → V).

Lemma update_each_notin coll (m : gmap nat V) n :
  n ∉ coll → update_each d g coll m !! n = m !! n.
Proof.
  induction coll as [|a coll IH]; simpl; [done|].
  intros Hn. apply not_elem_of_cons in Hn as [Hna Hn].
  rewrite lookup_insert_ne by done. auto.
Qed.

Lemma update_each_in coll (m : gmap nat V) n :
  (∀ x, g (g x) = g x) → n ∈ coll →
  update_each d g coll m !! n = Some (g (default d (m !! n))).
Proof.
  intros Hidem. induction coll as [|a coll IH]; simpl.
  - intros H. by apply elem_of_nil in H.
  - intros Hin. destruct (decide (a = n)) as [->|Hne].
    + rewrite lookup_insert_eq. f_equal.
      destruct (decide (n ∈ coll)) as [Hc|Hc].
      * rewrite IH by done. simpl. apply Hidem.
      * by rewrite update_each_notin.
    + rewrite lookup_insert_ne by done. apply IH.
      apply elem_of_cons in Hin as [?|?]; [congruence|done].
Qed.

Lemma update_each_nil (m : gmap nat V) : update_each d g [] m = m.
Proof. reflexivity. Qed.

End UpdateEach.

(** ** The jQuery calls *)

Lemma add_class_idem cls l :
  jQuery.add_class cls (jQuery.add_class cls l) = jQuery.add_class cls l.
Proof.
  unfold jQuery.add_class. destruct (bool_decide (cls ∈ l)) eqn:E.
  - by rewrite E.
  - rewrite bool_decide_eq_true_2; [done|]. apply elem_of_app. right.
    by apply list_elem_of_singleton.
Qed.

Lemma elem_of_add_class cls c l :
  c ∈ jQuery.add_class cls l ↔ c = cls ∨ c ∈ l.
Proof.
  unfold jQuery.add_class. case_bool_decide.
  - split; [auto|]. intros [->|?]; done.
  - rewrite elem_of_app, list_elem_of_singleton. tauto.
Qed.

Lemma remove_class_idem cls l :
  jQuery.remove_class cls (jQuery.remove_class cls l)
  = jQuery.remove_class cls l.
Proof.
  unfold jQuery.remove_class. induction l as [|a l IH]; [done|].
  rewrite filter_cons. case_decide.
  - rewrite filter_cons. rewrite decide_True by done. by rewrite IH.
  - done.
Qed.

Lemma elem_of_remove_class cls c l :
  c ∈ jQuery.remove_class cls l ↔ c ≠ cls ∧ c ∈ l.
Proof. unfold jQuery.remove_class. by rewrite list_elem_of_filter. Qed.

Section Frames.
Implicit Types (p : Page) (coll : list nat) (n : nat).

Lemma find_doc p q roots sel :
  doc p = doc q → jQuery.find p roots sel = jQuery.find q roots sel.
Proof. unfold jQuery.find. by intros ->. Qed.

Lemma closest_doc p q elem sel :
  doc p = doc q → jQuery.closest p elem sel = jQuery.closest q elem sel.
Proof. unfold jQuery.closest. by intros ->. Qed.

Lemma set_data_doc coll key v p : doc (jQuery.set_data coll key v p) = doc p.
Proof. by destruct v. Qed.

Lemma set_data_classes coll key v p :
  classes (jQuery.set_data coll key v p) = classes p.
Proof. by destruct v. Qed.

Lemma set_data_handlers coll key v p :
  handlers (jQuery.set_data coll key v p) = handlers p.
Proof. by destruct v. Qed.

Lemma set_data_rendered coll key v p :
  rendered (jQuery.set_data coll key v p) = rendered p.
Proof. by destruct v. Qed.

Lemma set_data_store_notin coll key v p n :
  n ∉ coll → store (jQuery.set_data coll key v p) !! n = store p !! n.
Proof. intros H. destruct v; simpl; by rewrite ?update_each_notin. Qed.

Lemma set_data_read_in coll key v p n :
  v ≠ Undefined → n ∈ coll →
  data_of (jQuery.set_data coll key v p) n key = v.
Proof.
  intros Hv Hn. unfold data_of.
  assert (store (jQuery.set_data coll key v p) !! n
          = Some (<[key := v]> (default ∅ (store p !! n)))) as ->.
  { destruct v; try done; simpl; apply update_each_in; try done;
      intros; apply insert_insert_eq. }
  simpl. by rewrite lookup_insert_eq.
Qed.

Lemma set_data_read_notin coll key v p n key' :
  n ∉ coll →
  data_of (jQuery.set_data coll key v p) n key' = data_of p n key'.
Proof. intros H. unfold data_of. by rewrite set_data_store_notin. Qed.

Lemma map_classes_notin f coll p n :
  n ∉ coll → classes (jQuery.map_classes f coll p) !! n = classes p !! n.
Proof. intros H. simpl. by rewrite update_each_notin. Qed.

Lemma map_classes_in f coll p n :
  (∀ l, f (f l) = f l) → n ∈ coll →
  classes_of (jQuery.map_classes f coll p) n = f (classes_of p n).
Proof.
  intros Hf H. unfold classes_of. simpl. by rewrite update_each_in.
Qed.

Lemma addClass_in coll cls p n :
  n ∈ coll →
  classes_of (jQuery.addClass coll cls p) n
  = jQuery.add_class cls (classes_of p n).
Proof. apply map_classes_in, add_class_idem. Qed.

Lemma removeClass_in coll cls p n :
  n ∈ coll →
  classes_of (jQuery.removeClass coll cls p) n
  = jQuery.remove_class cls (classes_of p n).
Proof. apply map_classes_in, remove_class_idem. Qed.

Lemma addClass_notin coll cls p n :
  n ∉ coll → classes_of (jQuery.addClass coll cls p) n = classes_of p n.
Proof.
  intros H. unfold classes_of, jQuery.addClass.
  by rewrite map_classes_notin.
Qed.

(** [addClass] never takes a class away, on any element. *)
Lemma addClass_keeps coll cls p n c :
  c ∈ classes_of p n → c ∈ classes_of (jQuery.addClass coll cls p) n.
Proof.
  intros H. destruct (decide (n ∈ coll)).
  - rewrite addClass_in by done. apply elem_of_add_class. auto.
  - by rewrite addClass_notin.
Qed.

(** [addClass] of another class changes no membership of [c]. *)
Lemma addClass_other coll cls p n c :
  c ≠ cls →
  c ∈ classes_of (jQuery.addClass coll cls p) n ↔ c ∈ classes_of p n.
Proof.
  intros Hc. destruct (decide (n ∈ coll)).
  - rewrite addClass_in by done. rewrite elem_of_add_class. tauto.
  - by rewrite addClass_notin.
Qed.

End Frames.

(** ** The two transitions *)

Section Transitions.
Variable cfg : Config.
Implicit Types (p : Page) (element : list nat) (n : nat) (initial : bool).

Local Abbreviation KEY := (data_content_state cfg).
Local Abbreviation COLLAPSED := (get_prop (states cfg) "collapsed").
Local Abbreviation VISIBLE := (get_prop (states cfg) "visible").

Lemma getContent_doc p q element :
  doc p = doc q → getContent cfg p element = getContent cfg q element.
Proof. apply find_doc. Qed.

Lemma getTrigger_doc p q element :
  doc p = doc q → getTrigger cfg p element = getTrigger cfg q element.
Proof. apply find_doc. Qed.

Lemma getElement_doc p q elem :
  doc p = doc q → getElement cfg p elem = getElement cfg q elem.
Proof. apply closest_doc. Qed.

Lemma setVisible_doc element initial p :
  doc (setVisible cfg element initial p) = doc p.
Proof. unfold setVisible. destruct initial; simpl; apply set_data_doc. Qed.

Lemma setCollapsed_doc element initial p :
  doc (setCollapsed cfg element initial p) = doc p.
Proof. unfold setCollapsed. destruct initial; simpl; apply set_data_doc. Qed.

Lemma setVisible_store element initial p :
  store (setVisible cfg element initial p)
  = store (jQuery.set_data element KEY VISIBLE p).
Proof. unfold setVisible. by destruct initial. Qed.

Lemma setCollapsed_store element initial p :
  store (setCollapsed cfg element initial p)
  = store (jQuery.set_data element KEY COLLAPSED p).
Proof. unfold setCollapsed. by destruct initial. Qed.

Lemma setVisible_classes element initial p :
  classes (setVisible cfg element initial p)
  = classes (jQuery.removeClass element "is-accordion--collapsed" p).
Proof.
  unfold setVisible. destruct initial; simpl; by rewrite set_data_classes.
Qed.

Lemma setCollapsed_classes element initial p :
  classes (setCollapsed cfg element initial p)
  = classes (jQuery.addClass element "is-accordion--collapsed" p).
Proof.
  unfold setCollapsed. destruct initial; simpl; by rewrite set_data_classes.
Qed.

Lemma setVisible_handlers element initial p :
  handlers (setVisible cfg element initial p) = handlers p.
Proof.
  unfold setVisible. destruct initial; simpl; apply set_data_handlers.
Qed.

Lemma setCollapsed_handlers element initial p :
  handlers (setCollapsed cfg element initial p) = handlers p.
Proof.
  unfold setCollapsed. destruct initial; simpl; apply set_data_handlers.
Qed.

Lemma setVisible_rendered element initial p :
  rendered (setVisible cfg element initial p)
  = rendered p ++
    ((fun n => (n, if initial then Show0 else StopSlideDown))
       <$> getContent cfg p element).
Proof.
  unfold setVisible.
  destruct initial; simpl; rewrite set_data_rendered; do 2 f_equal;
    apply getContent_doc; simpl; apply set_data_doc.
Qed.

Lemma setCollapsed_rendered element initial p :
  rendered (setCollapsed cfg element initial p)
  = rendered p ++
    ((fun n => (n, if initial then Hide0 else StopSlideUp))
       <$> getContent cfg p element).
Proof.
  unfold setCollapsed.
  destruct initial; simpl; rewrite set_data_rendered; do 2 f_equal;
    apply getContent_doc; simpl; apply set_data_doc.
Qed.

(** What a transition leaves on the elements it is applied to. *)
Lemma setVisible_state element initial p n :
  VISIBLE ≠ Undefined → n ∈ element →
  data_of (setVisible cfg element initial p) n KEY = VISIBLE.
Proof.
  intros Hv Hn. unfold data_of. rewrite setVisible_store.
  by apply set_data_read_in.
Qed.

Lemma setCollapsed_state element initial p n :
  COLLAPSED ≠ Undefined → n ∈ element →
  data_of (setCollapsed cfg element initial p) n KEY = COLLAPSED.
Proof.
  intros Hv Hn. unfold data_of. rewrite setCollapsed_store.
  by apply set_data_read_in.
Qed.

Lemma setVisible_marker element initial p n :
  n ∈ element →
  "is-accordion--collapsed"
    ∉ classes_of (setVisible cfg element initial p) n.
Proof.
  intros Hn. unfold classes_of. rewrite setVisible_classes.
  fold (classes_of (jQuery.removeClass element "is-accordion--collapsed" p) n).
  rewrite removeClass_in by done. rewrite elem_of_remove_class. tauto.
Qed.

Lemma setCollapsed_marker element initial p n :
  n ∈ element →
  "is-accordion--collapsed"
    ∈ classes_of (setCollapsed cfg element initial p) n.
Proof.
  intros Hn. unfold classes_of. rewrite setCollapsed_classes.
  fold (classes_of (jQuery.addClass element "is-accordion--collapsed" p) n).
  rewrite addClass_in by done. rewrite elem_of_add_class. tauto.
Qed.

(** What a transition leaves alone: every other element. *)
Lemma setVisible_frame element initial p n :
  n ∉ element →
  store (setVisible cfg element initial p) !! n = store p !! n
  ∧ classes (setVisible cfg element initial p) !! n = classes p !! n.
Proof.
  intros Hn. rewrite setVisible_store, setVisible_classes. split.
  - by apply set_data_store_notin.
  - by apply map_classes_notin.
Qed.

Lemma setCollapsed_frame element initial p n :
  n ∉ element →
  store (setCollapsed cfg element initial p) !! n = store p !! n
  ∧ classes (setCollapsed cfg element initial p) !! n = classes p !! n.
Proof.
  intros Hn. rewrite setCollapsed_store, setCollapsed_classes. split.
  - by apply set_data_store_notin.
  - by apply map_classes_notin.
Qed.

Lemma setDefault_doc elements p : doc (setDefault cfg elements p) = doc p.
Proof.
  unfold setDefault.
  destruct (isCollapsed _ _); [apply setCollapsed_doc|].
  destruct (isVisible _ _); [apply setVisible_doc|done].
Qed.

Lemma click_handler_doc this ev p :
  doc (page_after (click_handler cfg this ev p)) = doc p.
Proof.
  unfold click_handler. destruct (getState _ _ _); [|done].
  destruct (isCollapsed _ _); [apply setVisible_doc|].
  destruct (isVisible _ _); [apply setCollapsed_doc|done].
Qed.

Lemma accordion_doc self p : doc (accordion cfg self p) = doc p.
Proof. unfold accordion. simpl. apply setDefault_doc. Qed.

(** After [setDefault], [accordion] only adds classes and handlers. *)
Lemma accordion_store self p :
  store (accordion cfg self p) = store (setDefault cfg self p).
Proof. reflexivity. Qed.

Lemma accordion_rendered self p :
  rendered (accordion cfg self p) = rendered (setDefault cfg self p).
Proof. reflexivity. Qed.

End Transitions.

(** ** The configuration of the source *)

Lemma config_collapsed : get_prop (states config) "collapsed" = Str "collapsed".
Proof. reflexivity. Qed.

Lemma config_visible : get_prop (states config) "visible" = Str "visible".
Proof. reflexivity. Qed.

Lemma config_default : get_prop (states config) "default" = Str "collapsed".
Proof. reflexivity. Qed.

Lemma config_getDefaultState :
  getDefaultState config = Normal (Str "collapsed").
Proof. reflexivity. Qed.

(** ** Values *)

Lemma truthy_defined v : truthy v = true → v ≠ Undefined.
Proof. by intros H ->. Qed.

Lemma strict_eq_refl v : truthy v = true → strict_eq v v = true.
Proof.
  destruct v; simpl; try done; intros _.
  - by destruct b.
  - apply Z.eqb_refl.
  - apply String.eqb_refl.
  - apply Nat.eqb_refl.
  - apply Nat.eqb_refl.
Qed.

Lemma strict_eq_true a b : strict_eq a b = true → a = b.
Proof.
  destruct a, b; simpl; try done; intros H; f_equal.
  - by apply Bool.eqb_prop.
  - by apply Z.eqb_eq.
  - by apply String.eqb_eq.
  - by apply Nat.eqb_eq.
  - by apply Nat.eqb_eq.
Qed.

(** ** Reading the state *)

Section Reading.
Variable cfg : Config.
Local Abbreviation KEY := (data_content_state cfg).

Lemma getState_truthy p c :
  truthy (data_of p c KEY) = true →
  getState cfg p [c] = Normal (data_of p c KEY).
Proof. intros H. unfold getState. simpl. by rewrite H. Qed.

Lemma getState_falsy p c :
  truthy (data_of p c KEY) = false →
  getState cfg p [c] = getDefaultState cfg.
Proof. intros H. unfold getState. simpl. by rewrite H. Qed.

(** [getState] never returns a falsy value. *)
Lemma getState_Normal_truthy p element s :
  getState cfg p element = Normal s → truthy s = true.
Proof.
  unfold getState, getDefaultState.
  destruct (truthy (jQuery.data _ _ _)) eqn:E; [by intros [= <-]|].
  destruct (truthy (get_prop _ _)) eqn:E'; simpl; [by intros [= <-]|done].
Qed.

End Reading.

(** ** The toggle, for a configuration with two distinct truthy state values *)

Section Toggle.
Variable cfg : Config.
Local Abbreviation KEY := (data_content_state cfg).
Local Abbreviation COLLAPSED := (get_prop (states cfg) "collapsed").
Local Abbreviation VISIBLE := (get_prop (states cfg) "visible").

Hypothesis collapsed_truthy : truthy COLLAPSED = true.
Hypothesis visible_truthy : truthy VISIBLE = true.
Hypothesis distinct : strict_eq COLLAPSED VISIBLE = false.

Lemma visible_not_collapsed : VISIBLE ≠ COLLAPSED.
Proof.
  intros E. rewrite E in distinct.
  by rewrite strict_eq_refl in distinct.
Qed.

Lemma isCollapsed_visible : isCollapsed cfg VISIBLE = false.
Proof.
  unfold isCollapsed. destruct (strict_eq VISIBLE COLLAPSED) eqn:E; [|done].
  apply strict_eq_true in E. by apply visible_not_collapsed in E.
Qed.

Lemma click_on_collapsed p this ev c :
  getElement cfg p this = [c] → data_of p c KEY = COLLAPSED →
  click_handler cfg this ev p
  = mkOutcome (setVisible cfg [c] false p) (mkEvent true)
              (Normal (Bool false)).
Proof.
  intros Hparent Hstate. unfold click_handler. rewrite Hparent.
  rewrite getState_truthy by (by rewrite Hstate). rewrite Hstate.
  unfold isCollapsed. by rewrite strict_eq_refl.
Qed.

Lemma click_on_visible p this ev c :
  getElement cfg p this = [c] → data_of p c KEY = VISIBLE →
  click_handler cfg this ev p
  = mkOutcome (setCollapsed cfg [c] false p) (mkEvent true)
              (Normal (Bool false)).
Proof.
  intros Hparent Hstate. unfold click_handler. rewrite Hparent.
  rewrite getState_truthy by (by rewrite Hstate). rewrite Hstate.
  rewrite isCollapsed_visible.
  unfold isVisible. by rewrite strict_eq_refl.
Qed.

(** One run of the handler moves a state value to the other one. *)
Lemma activate_toggles p this c s :
  getElement cfg p this = [c] →
  s = VISIBLE ∨ s = COLLAPSED →
  data_of p c KEY = s →
  data_of (activate cfg this p) c KEY = other_state cfg s
  ∧ result (click_handler cfg this (mkEvent false) p) = Normal (Bool false).
Proof.
  intros Hparent [->| ->] Hstate; unfold activate, other_state.
  - rewrite (click_on_visible _ _ _ c) by done. cbn [page_after result].
    rewrite decide_False by apply visible_not_collapsed.
    split; [|done]. apply setCollapsed_state; [|by left].
    by apply truthy_defined.
  - rewrite (click_on_collapsed _ _ _ c) by done. cbn [page_after result].
    rewrite decide_True by done.
    split; [|done]. apply setVisible_state; [|by left].
    by apply truthy_defined.
Qed.

Lemma other_state_involutive s :
  s = VISIBLE ∨ s = COLLAPSED → other_state cfg (other_state cfg s) = s.
Proof.
  intros [->| ->]; unfold other_state.
  - rewrite (decide_False (P := VISIBLE = COLLAPSED))
      by apply visible_not_collapsed.
    by rewrite decide_True.
  - rewrite (decide_True (P := COLLAPSED = COLLAPSED)) by done.
    by rewrite decide_False by apply visible_not_collapsed.
Qed.

Lemma other_state_is_state s :
  s = VISIBLE ∨ s = COLLAPSED →
  other_state cfg s = VISIBLE ∨ other_state cfg s = COLLAPSED.
Proof. intros _. unfold other_state. case_decide; auto. Qed.

Lemma getElement_activate p this this' :
  getElement cfg (activate cfg this' p) this = getElement cfg p this.
Proof. apply getElement_doc, click_handler_doc. Qed.

(** After [n] runs only the parity of [n] matters. *)
Lemma activate_parity p this c s n :
  getElement cfg p this = [c] →
  s = VISIBLE ∨ s = COLLAPSED →
  data_of p c KEY = s →
  data_of (Nat.iter n (activate cfg this) p) c KEY
  = if Nat.even n then s else other_state cfg s.
Proof.
  intros Hparent Hs Hstate.
  assert (getElement cfg (Nat.iter n (activate cfg this) p) this = [c]
          ∧ data_of (Nat.iter n (activate cfg this) p) c KEY
            = if Nat.even n then s else other_state cfg s) as [_ H];
    [|exact H].
  induction n as [|n [IHp IHs]]; [done|].
  rewrite Nat.even_succ, <- Nat.negb_even. simpl Nat.iter. split.
  - by rewrite getElement_activate.
  - destruct (Nat.even n); simpl.
    + by apply activate_toggles.
    + transitivity (other_state cfg (other_state cfg s));
        [|by apply other_state_involutive].
      apply activate_toggles; [done| |done].
      by apply other_state_is_state.
Qed.

End Toggle.

(** ** The marker class follows the state *)

Lemma marker_agrees_frame cfg p q c :
  store q !! c = store p !! c → classes q !! c = classes p !! c →
  marker_agrees cfg p c → marker_agrees cfg q c.
Proof.
  unfold marker_agrees, data_of, classes_of. by intros -> ->.
Qed.

Lemma addClass_agrees cfg coll cls p c :
  cls ≠ "is-accordion--collapsed" →
  marker_agrees cfg p c → marker_agrees cfg (jQuery.addClass coll cls p) c.
Proof.
  intros Hcls. unfold marker_agrees.
  rewrite addClass_other by done. done.
Qed.

Section Invariant.
Variable cfg : Config.
Local Abbreviation KEY := (data_content_state cfg).
Local Abbreviation COLLAPSED := (get_prop (states cfg) "collapsed").
Local Abbreviation VISIBLE := (get_prop (states cfg) "visible").

Hypothesis collapsed_truthy : truthy COLLAPSED = true.
Hypothesis visible_truthy : truthy VISIBLE = true.
Hypothesis distinct : strict_eq COLLAPSED VISIBLE = false.

Lemma setVisible_agrees element initial p c :
  marker_agrees cfg p c →
  marker_agrees cfg (setVisible cfg element initial p) c.
Proof.
  intros H. destruct (decide (c ∈ element)) as [Hin|Hout].
  - unfold marker_agrees.
    rewrite setVisible_state; [|by apply truthy_defined|done].
    split.
    + intros Hc. by apply setVisible_marker in Hc.
    + intros E. by apply visible_not_collapsed in E.
  - destruct (setVisible_frame cfg element initial p c Hout).
    by eapply marker_agrees_frame.
Qed.

Lemma setCollapsed_agrees element initial p c :
  marker_agrees cfg p c →
  marker_agrees cfg (setCollapsed cfg element initial p) c.
Proof.
  intros H. destruct (decide (c ∈ element)) as [Hin|Hout].
  - unfold marker_agrees.
    rewrite setCollapsed_state; [|by apply truthy_defined|done].
    split; [done|]. intros _. by apply setCollapsed_marker.
  - destruct (setCollapsed_frame cfg element initial p c Hout).
    by eapply marker_agrees_frame.
Qed.

Lemma activate_agrees this p c :
  marker_agrees cfg p c → marker_agrees cfg (activate cfg this p) c.
Proof.
  intros H. unfold activate, click_handler.
  destruct (getState _ _ _); [|done].
  destruct (isCollapsed _ _); [by apply setVisible_agrees|].
  destruct (isVisible _ _); [by apply setCollapsed_agrees|done].
Qed.

Lemma setDefault_agrees elements p c :
  marker_agrees cfg p c → marker_agrees cfg (setDefault cfg elements p) c.
Proof.
  intros H. unfold setDefault.
  destruct (isCollapsed _ _); [by apply setCollapsed_agrees|].
  destruct (isVisible _ _); [by apply setVisible_agrees|done].
Qed.

Lemma accordion_agrees self p c :
  marker_agrees cfg p c → marker_agrees cfg (accordion cfg self p) c.
Proof.
  intros H. unfold accordion.
  eapply marker_agrees_frame; [reflexivity|reflexivity|].
  repeat (apply addClass_agrees; [discriminate|]).
  by apply setDefault_agrees.
Qed.

Lemma step_agrees op p c :
  marker_agrees cfg p c → marker_agrees cfg (step cfg p op) c.
Proof. destruct op; [apply accordion_agrees|apply activate_agrees]. Qed.

Lemma run_agrees ops p c :
  marker_agrees cfg p c → marker_agrees cfg (run cfg ops p) c.
Proof.
  revert p. induction ops as [|op ops IH]; intros p H; [done|].
  apply IH. by apply step_agrees.
Qed.

End Invariant.

(** ** Initialization with the configuration of the source *)

Lemma config_setDefault elements p :
  setDefault config elements p = setCollapsed config elements true p.
Proof. reflexivity. Qed.

Lemma accordion_state elements p c :
  c ∈ elements →
  data_of (accordion config elements p) c (data_content_state config)
  = Str "collapsed".
Proof.
  intros Hc. unfold data_of. rewrite accordion_store, config_setDefault.
  by apply (setCollapsed_state config).
Qed.

Lemma accordion_marker elements p c :
  c ∈ elements →
  "is-accordion--collapsed" ∈ classes_of (accordion config elements p) c.
Proof.
  intros Hc. unfold accordion. rewrite config_setDefault.
  change (classes_of (jQuery.on_click ?t ?q) c) with (classes_of q c).
  do 3 apply addClass_keeps. by apply setCollapsed_marker.
Qed.

Lemma accordion_establishes elements p c :
  c ∈ elements → marker_agrees config (accordion config elements p) c.
Proof.
  intros Hc. unfold marker_agrees.
  rewrite accordion_state by done. split; [done|].
  intros _. by apply accordion_marker.
Qed.

(** ** The walk to the nearest container *)

Lemma parent_chain_snoc l c e :
  parent_chain l → last l = Some c → c ∈ node_children e →
  parent_chain (l ++ [e]).
Proof.
  induction 1 as [x|x y l Hxy Hl IH]; simpl.
  - intros [= ->] Hc. constructor; [done|constructor].
  - intros Hlast Hc. constructor; [done|]. by apply IH.
Qed.

Lemma first_some_Some {A B} (f : A → option B) l b :
  first_some f l = Some b → ∃ a, a ∈ l ∧ f a = Some b.
Proof.
  induction l as [|a l IH]; simpl; [done|].
  destruct (f a) eqn:E.
  - intros [= <-]. exists a. split; [left|done].
  - intros H. destruct (IH H) as (a' & Hin & Ha').
    exists a'. split; [by right|done].
Qed.

(** The chain [chain_to] returns starts at the target, ends at the root it
    was searched from, and climbs from child to parent. *)
Lemma chain_to_spec target e l :
  chain_to target e = Some l →
  (∃ x rest, l = x :: rest ∧ node_id x = target)
  ∧ last l = Some e ∧ parent_chain l.
Proof.
  revert l. induction e as [i a cs IH] using Node_induction. intros l.
  simpl. destruct (Nat.eqb i target) eqn:E.
  - intros [= <-]. apply Nat.eqb_eq in E. split; [|split].
    + by exists (Elem i a cs), [].
    + done.
    + constructor.
  - destruct (first_some (chain_to target) cs) as [ch|] eqn:Ech; [|done].
    intros [= <-]. destruct (first_some_Some _ _ _ Ech) as (c & Hin & Hc).
    rewrite Forall_forall in IH.
    destruct (IH c Hin ch Hc) as ((x & rest & -> & Hx) & Hlast & Hchain).
    split; [|split].
    + by exists x, (rest ++ [Elem i a cs]).
    + by rewrite last_snoc.
    + by eapply parent_chain_snoc.
Qed.

Lemma find_first {A} (f : A → bool) l e :
  List.find f l = Some e →
  ∃ before after, l = before ++ e :: after ∧ f e = true
                  ∧ ∀ x, x ∈ before → f x = false.
Proof.
  induction l as [|a l IH]; simpl; [done|].
  destruct (f a) eqn:E.
  - intros [= ->]. exists [], l. split; [done|]. split; [done|].
    intros x Hx. by apply elem_of_nil in Hx.
  - intros H. destruct (IH H) as (before & after & -> & He & Hb).
    exists (a :: before), after. split; [done|]. split; [done|].
    intros x Hx. apply elem_of_cons in Hx as [->|Hx]; auto.
Qed.

(** [closest] yields at most one element, the first match on the walk. *)
Lemma closest_nearest p elem sel c :
  jQuery.closest p elem sel = [c] →
  ∃ before e after,
    ancestors_or_self (doc p) elem = before ++ e :: after
    ∧ node_id e = c ∧ matches sel e = true
    ∧ ∀ x, x ∈ before → matches sel x = false.
Proof.
  unfold jQuery.closest.
  destruct (List.find _ _) as [e|] eqn:E; [|done].
  intros [= <-]. destruct (find_first _ _ _ E) as (b & a & H1 & H2 & H3).
  by exists b, e, a.
Qed.

Lemma closest_at_most_one p elem sel :
  jQuery.closest p elem sel = [] ∨ ∃ c, jQuery.closest p elem sel = [c].
Proof. unfold jQuery.closest. destruct (List.find _ _); eauto. Qed.

Lemma ancestors_or_self_chain d elem :
  ancestors_or_self d elem = []
  ∨ (∃ x rest, ancestors_or_self d elem = x :: rest ∧ node_id x = elem)
    ∧ last (ancestors_or_self d elem) = Some d
    ∧ parent_chain (ancestors_or_self d elem).
Proof.
  unfold ancestors_or_self. destruct (chain_to elem d) eqn:E; [|by left].
  right. by apply chain_to_spec.
Qed.

(** ** What a run of the handler leaves alone *)

Lemma click_handler_frame cfg this ev p c :
  c ∉ getElement cfg p this →
  store (page_after (click_handler cfg this ev p)) !! c = store p !! c
  ∧ classes (page_after (click_handler cfg this ev p)) !! c = classes p !! c.
Proof.
  intros Hc. unfold click_handler.
  destruct (getState _ _ _); [|done].
  destruct (isCollapsed _ _); [by apply setVisible_frame|].
  destruct (isVisible _ _); [by apply setCollapsed_frame|done].
Qed.

Lemma click_handler_prevents_default cfg this ev p :
  defaultPrevented (event_after (click_handler cfg this ev p)) = true.
Proof.
  unfold click_handler. destruct (getState _ _ _); [|done].
  destruct (isCollapsed _ _); [done|]. by destruct (isVisible _ _).
Qed.

(** ** Queries *)

Lemma find_elem_of p roots sel n :
  n ∈ jQuery.find p roots sel ↔
  ∃ e, e ∈ all_nodes (doc p) ∧ node_id e = n ∧ matches sel e = true
       ∧ ∃ r, r ∈ roots ∧ r ∈ ancestor_ids (doc p) n.
Proof.
  unfold jQuery.find. rewrite list_elem_of_fmap. split.
  - intros (e & -> & He). apply list_elem_of_In, filter_In in He as [Hin Hf].
    apply andb_true_iff in Hf as [Hm Hr].
    apply existsb_exists in Hr as (r & Hr & Hanc).
    exists e. split; [by apply list_elem_of_In|]. split; [done|].
    split; [done|]. exists r. split; [by apply list_elem_of_In|].
    by apply bool_decide_eq_true in Hanc.
  - intros (e & Hin & <- & Hm & r & Hr & Hanc). exists e. split; [done|].
    apply list_elem_of_In, filter_In. split; [by apply list_elem_of_In|].
    apply andb_true_iff. split; [done|]. apply existsb_exists.
    exists r. split; [by apply list_elem_of_In|].
    by apply bool_decide_eq_true.
Qed.

(** Nothing below a root whose own query is empty is found from a larger
    collection either. *)
Lemma find_empty_below p roots sel c n :
  jQuery.find p [c] sel = [] → c ∈ ancestor_ids (doc p) n →
  n ∉ jQuery.find p roots sel.
Proof.
  intros Hempty Hanc Hn.
  apply find_elem_of in Hn as (e & Hin & Hid & Hm & _).
  assert (n ∈ jQuery.find p [c] sel) as H.
  { apply find_elem_of. exists e. repeat (split; [done|]).
    exists c. split; [by left|done]. }
  rewrite Hempty in H. by apply elem_of_nil in H.
Qed.

Lemma setDefault_handlers cfg elements p :
  handlers (setDefault cfg elements p) = handlers p.
Proof.
  unfold setDefault.
  destruct (isCollapsed _ _); [apply setCollapsed_handlers|].
  destruct (isVisible _ _); [apply setVisible_handlers|done].
Qed.

Lemma accordion_handlers cfg self p :
  handlers (accordion cfg self p)
  = update_each 0 S (getTrigger cfg p self) (handlers p).
Proof.
  unfold accordion. simpl. rewrite setDefault_handlers. f_equal.
  apply getTrigger_doc. simpl. apply setDefault_doc.
Qed.

Lemma accordion_is_accordion cfg self p c :
  c ∈ self → "is-accordion" ∈ classes_of (accordion cfg self p) c.
Proof.
  intros Hc. unfold accordion.
  change (classes_of (jQuery.on_click ?t ?q) c) with (classes_of q c).
  do 2 apply addClass_keeps. rewrite addClass_in by done.
  apply elem_of_add_class. by left.
Qed.

(** ** The sample page, run *)

Example sample_ready :
  classes_of Sample.ready 1 = ["is-accordion--collapsed"; "is-accordion"]
  ∧ classes_of Sample.ready 2 = ["is-accordion-trigger"]
  ∧ classes_of Sample.ready 3 = ["is-accordion-content"]
  ∧ data_of Sample.ready 1 "js-accordion-content-state" = Str "collapsed"
  ∧ handlers_of Sample.ready 2 = 1
  ∧ rendered Sample.ready = [(3, Hide0); (6, Hide0)].
Proof. repeat split; reflexivity. Qed.

Example sample_first_click :
  classes_of (activate config 2 Sample.ready) 1 = ["is-accordion"]
  ∧ data_of (activate config 2 Sample.ready) 1 "js-accordion-content-state"
    = Str "visible"
  ∧ rendered (activate config 2 Sample.ready)
    = [(3, Hide0); (6, Hide0); (3, StopSlideDown)].
Proof. repeat split; reflexivity. Qed.

Example sample_second_click :
  classes_of (activate config 2 (activate config 2 Sample.ready)) 1
  = ["is-accordion"; "is-accordion--collapsed"]
  ∧ data_of (activate config 2 (activate config 2 Sample.ready)) 1
      "js-accordion-content-state" = Str "collapsed"
  ∧ rendered (activate config 2 (activate config 2 Sample.ready))
    = [(3, Hide0); (6, Hide0); (3, StopSlideDown); (3, StopSlideUp)].
Proof. repeat split; reflexivity. Qed.

(** With a default key that names no state, the plugin call completes: it
    tags the container, stores no state, binds the handler; the error comes
    from the first click. *)
Example sample_unresolvable_default :
  getDefaultState Sample.bad_config
  = Throw (Str "No default state found for accordion.")
  ∧ classes_of (accordion Sample.bad_config [1; 4] Sample.page) 1
    = ["is-accordion"]
  ∧ data_of (accordion Sample.bad_config [1; 4] Sample.page) 1
      "js-accordion-content-state" = Undefined
  ∧ handlers_of (accordion Sample.bad_config [1; 4] Sample.page) 2 = 1
  ∧ result (click_handler Sample.bad_config 2 (mkEvent false)
              (accordion Sample.bad_config [1; 4] Sample.page))
    = Throw (Str "No default state found for accordion.").
Proof. repeat split; reflexivity. Qed.

Example sample_load :
  load Sample.window_fresh
  = (mkWindow (Fun 7) (Some {[ "accordion" := Fun accordion_ref ]}) 1,
     Normal tt).
Proof. reflexivity. Qed.

(** ** Counting handlers and reading classes after a plugin call *)

Lemma update_each_S_grows coll (m : gmap nat nat) n :
  n ∈ coll → default 0 (m !! n) < default 0 (update_each 0 S coll m !! n).
Proof.
  assert (∀ l, default 0 (m !! n) ≤ default 0 (update_each 0 S l m !! n))
    as Hle.
  { induction l as [|a l IH]; simpl; [done|].
    destruct (decide (a = n)) as [->|Hne].
    - rewrite lookup_insert_eq. simpl. lia.
    - by rewrite lookup_insert_ne. }
  induction coll as [|a coll IH]; simpl.
  - intros H. by apply elem_of_nil in H.
  - intros Hin. destruct (decide (a = n)) as [->|Hne].
    + rewrite lookup_insert_eq. simpl. specialize (Hle coll). lia.
    + rewrite lookup_insert_ne by done. apply IH.
      apply elem_of_cons in Hin as [?|?]; [congruence|done].
Qed.

Lemma accordion_classes_unfold cfg self p n :
  classes_of (accordion cfg self p) n
  = classes_of
      (jQuery.addClass (getTrigger cfg p self) "is-accordion-trigger"
         (jQuery.addClass (getContent cfg p self) "is-accordion-content"
            (jQuery.addClass self "is-accordion" (setDefault cfg self p)))) n.
Proof.
  unfold accordion.
  change (classes_of (jQuery.on_click ?t ?q) n) with (classes_of q n).
  rewrite (getTrigger_doc cfg _ p), (getContent_doc cfg _ p); [done|..];
    simpl; apply setDefault_doc.
Qed.

(** ** Clicks *)

(** The page a run of the handler leaves is the page itself or the result
    of one of the two transitions, animated, on the resolved container. *)
Lemma click_handler_cases cfg this ev p :
  (page_after (click_handler cfg this ev p) = p
   ∧ (result (click_handler cfg this ev p) = Normal (Bool false)
      ∨ result (click_handler cfg this ev p) = getDefaultState cfg
        ∧ ∃ v, getDefaultState cfg = Throw v))
  ∨ (page_after (click_handler cfg this ev p)
     = setVisible cfg (getElement cfg p this) false p
     ∧ result (click_handler cfg this ev p) = Normal (Bool false))
  ∨ (page_after (click_handler cfg this ev p)
     = setCollapsed cfg (getElement cfg p this) false p
     ∧ result (click_handler cfg this ev p) = Normal (Bool false)).
Proof.
  unfold click_handler. destruct (getState _ _ _) as [s|v] eqn:E.
  - destruct (isCollapsed _ _); [right; left; done|].
    destruct (isVisible _ _); [right; right; done|]. left. auto.
  - left. split; [done|]. right. revert E. unfold getState.
    destruct (truthy _); [done|]. intros ->. eauto.
Qed.

Lemma click_handler_page_any_event cfg this ev ev' p :
  page_after (click_handler cfg this ev p)
  = page_after (click_handler cfg this ev' p).
Proof.
  unfold click_handler. destruct (getState _ _ _); [|done].
  destruct (isCollapsed _ _); [done|]. by destruct (isVisible _ _).
Qed.

Lemma config_click_completes this ev p :
  result (click_handler config this ev p) = Normal (Bool false).
Proof.
  destruct (click_handler_cases config this ev p)
    as [[_ [Hr|[_ [w Hw]]]]|[[_ Hr]|[_ Hr]]]; done.
Qed.

Lemma config_dispatch_page bound this ev p :
  page_after (dispatch config bound this ev p)
  = Nat.iter bound (activate config this) p.
Proof.
  revert ev p. induction bound as [|k IH]; intros ev p; [done|].
  rewrite Nat.iter_succ_r. cbn [dispatch]. rewrite config_click_completes.
  destruct k as [|k'].
  - apply click_handler_page_any_event.
  - rewrite IH. f_equal; apply click_handler_page_any_event.
Qed.

Lemma click_handler_handlers cfg this ev p :
  handlers (page_after (click_handler cfg this ev p)) = handlers p.
Proof.
  destruct (click_handler_cases cfg this ev p)
    as [[-> _]|[[-> _]|[-> _]]]; [done| |].
  - apply setVisible_handlers.
  - apply setCollapsed_handlers.
Qed.

Lemma iter_activate_keeps cfg this n p :
  doc (Nat.iter n (activate cfg this) p) = doc p
  ∧ handlers (Nat.iter n (activate cfg this) p) = handlers p.
Proof.
  induction n as [|n [IHd IHh]]; [done|]. simpl. unfold activate at 1 3.
  by rewrite click_handler_doc, click_handler_handlers.
Qed.

Lemma bubble_target_ext p q target :
  doc q = doc p → handlers q = handlers p →
  bubble_target q target = bubble_target p target.
Proof. unfold bubble_target, handlers_of. by intros -> ->. Qed.

(** With the configuration of the source, a click is as many runs of the
    handler as the element the event reaches has handlers bound. *)
Lemma config_click_page p target this ev :
  bubble_target p target = Some this →
  page_after (click config target ev p)
  = Nat.iter (handlers_of p this) (activate config this) p.
Proof.
  intros H. unfold click. rewrite H. apply config_dispatch_page.
Qed.

Lemma config_clicks_page p target this n :
  bubble_target p target = Some this →
  clicks config target n p
  = Nat.iter (n * handlers_of p this) (activate config this) p.
Proof.
  intros H. induction n as [|n IH]; [done|].
  change (clicks config target (S n) p)
    with (page_after (click config target (mkEvent false)
                        (clicks config target n p))).
  rewrite IH.
  destruct (iter_activate_keeps config this (n * handlers_of p this) p)
    as [Hd Hh].
  rewrite (config_click_page _ target this).
  - unfold handlers_of at 1. rewrite Hh.
    fold (handlers_of p this). by rewrite <- Nat.iter_add.
  - by rewrite (bubble_target_ext p).
Qed.

(** With one handler bound where the event arrives, a click is one run of
    the handler. *)
Lemma click_bound_once cfg target this ev p :
  bubble_target p target = Some this → handlers_of p this = 1 →
  click cfg target ev p = click_handler cfg this ev p.
Proof.
  intros Ht H. unfold click. rewrite Ht, H. simpl.
  by destruct (result (click_handler cfg this ev p)).
Qed.

(** Each plugin call binds one more handler to each trigger it finds. *)
Example sample_bound_twice :
  handlers_of (accordion config [1; 4] Sample.ready) 2 = 2
  ∧ data_of (page_after (click config 2 (mkEvent false)
                           (accordion config [1; 4] Sample.ready))) 1
      "js-accordion-content-state" = Str "collapsed".
Proof. split; reflexivity. Qed.

(** * The claims *)



(** C2, as stated: one activation of a container's trigger toggles its
    persisted state.  False after the plugin has been called twice on the
    sample page: the trigger has two handlers bound, a click runs both, and
    the first container is collapsed before and after. *)
Lemma activation_toggles_counterexample :
  ¬ (∀ (p : Page) (target c : nat) (s : value),
       getElement config p target = [c] →
       s = Str "visible" ∨ s = Str "collapsed" →
       data_of p c (data_content_state config) = s →
       data_of (page_after (click config target (mkEvent false) p)) c
         (data_content_state config)
       = other_state config s).
Proof.
  intros H.
  specialize (H (accordion config [1; 4] Sample.ready) 2 1 (Str "collapsed")
                eq_refl (or_intror eq_refl) eq_refl).
  discriminate H.
Qed.

(** C2, amended.  With the configuration of the source, let a click on
    [target] reach the trigger [this], which resolves to the container [c]
    whose persisted state [s] is visible or collapsed.  One run of the
    click handler completes and leaves the other state value persisted, and
    after [n] runs the state is [s] for even [n] and the other value for odd
    [n].  A click runs the handler once for each handler bound to the
    trigger, one per plugin call that found it: so one click leaves the
    other value when that number is odd (as after a single initialization)
    and [s] when it is even; two successive clicks always leave [s]; after
    [n] clicks the state depends only on [s] and the parity of [n] times
    that number, whatever rendering calls were issued. *)
Theorem activation_toggles_per_bound_handler
    (p : Page) (target this c : nat) (ev : Event) (s : value) (n : nat) :
  bubble_target p target = Some this →
  getElement config p this = [c] →
  s = Str "visible" ∨ s = Str "collapsed" →
  data_of p c (data_content_state config) = s →
  result (click_handler config this ev p) = Normal (Bool false)
  ∧ data_of (activate config this p) c (data_content_state config)
    = other_state config s
  ∧ other_state config s ≠ s
  ∧ (other_state config s = Str "visible"
     ∨ other_state config s = Str "collapsed")
  ∧ data_of (Nat.iter n (activate config this) p) c
      (data_content_state config)
    = (if Nat.even n then s else other_state config s)
  ∧ data_of (page_after (click config target ev p)) c
      (data_content_state config)
    = (if Nat.even (handlers_of p this) then s else other_state config s)
  ∧ data_of (clicks config target 2 p) c (data_content_state config) = s
  ∧ data_of (clicks config target n p) c (data_content_state config)
    = (if Nat.even (n * handlers_of p this) then s
       else other_state config s).
Proof.
  intros Hreach Hparent Hs Hstate.
  pose proof (activate_parity config eq_refl eq_refl eq_refl p this c s)
    as Hparity.
  split; [apply config_click_completes|].
  split; [by apply (activate_toggles config eq_refl eq_refl eq_refl)|].
  split; [destruct Hs as [-> | ->]; discriminate|].
  split; [destruct Hs as [-> | ->]; [by right|by left]|].
  split; [by apply Hparity|].
  split; [rewrite (config_click_page p target this ev Hreach);
          by apply Hparity|].
  split.
  - rewrite (config_clicks_page p target this 2 Hreach).
    rewrite Hparity by done.
    by rewrite Nat.even_mul.
  - rewrite (config_clicks_page p target this n Hreach). by apply Hparity.
Qed.

Lemma activation_toggles_per_bound_handler_witness :
  bubble_target Sample.ready 2 = Some 2
  ∧ getElement config Sample.ready 2 = [1]
  ∧ data_of Sample.ready 1 (data_content_state config) = Str "collapsed"
  ∧ handlers_of Sample.ready 2 = 1
  ∧ data_of (page_after (click config 2 (mkEvent false) Sample.ready)) 1
      (data_content_state config) = Str "visible"
  ∧ data_of (clicks config 2 2 Sample.ready) 1 (data_content_state config)
    = Str "collapsed"
  ∧ data_of (clicks config 2 3 Sample.ready) 1 (data_content_state config)
    = Str "visible".
Proof.
  destruct (activation_toggles_per_bound_handler Sample.ready 2 2 1
              (mkEvent false) (Str "collapsed") 3 eq_refl eq_refl
              (or_intror eq_refl) eq_refl)
    as (_ & _ & _ & _ & _ & Hone & Htwo & Hn).
  split; [reflexivity|]. split; [reflexivity|]. split; [reflexivity|].
  split; [reflexivity|]. split; [exact Hone|]. split; [exact Htwo|exact Hn].
Defined.

(** C3, as stated: whenever a value is persisted on a container, [getState]
    returns it.  False: a persisted empty string is not returned. *)
Lemma getState_returns_persisted_counterexample :
  ¬ (∀ (p : Page) (c : nat) (v : value),
       store p !! c ≫= (.!! data_content_state config) = Some v →
       getState config p [c] = Normal v).
Proof.
  intros H. specialize (H Sample.page_empty_state 1 (Str "") eq_refl).
  discriminate H.
Qed.

(** C3, amended.  For every configuration and container, [getState]
    returns the persisted value when one is present and truthy; when none
    is present, or the one present is falsy, it does what [getDefaultState]
    does: return the value the default key maps to in the state map when
    that value is truthy, throw otherwise. *)
Theorem getState_persisted_or_default (cfg : Config) (p : Page) (c : nat) :
  getState cfg p [c]
  = match store p !! c ≫= (.!! data_content_state cfg) with
    | Some v => if truthy v then Normal v else getDefaultState cfg
    | None => getDefaultState cfg
    end
  ∧ getDefaultState cfg
    = (let mapped :=
         get_prop (states cfg)
           (to_property_key (get_prop (states cfg) "default")) in
       if truthy mapped then Normal mapped
       else Throw (Str "No default state found for accordion.")).
Proof.
  split.
  - unfold getState, jQuery.data, data_of.
    by destruct (store p !! c ≫= _) as [v|].
  - unfold getDefaultState. simpl. by destruct (truthy _).
Qed.

(** C4.  With the configuration of the source: whatever the page was
    before, after the plugin has been called on a collection, any sequence
    of plugin calls and handler runs has followed, and the plugin is called
    on the collection again, every container of the collection has the
    default state value persisted. *)
Theorem reinitialization_resets_state
    (p : Page) (self : list nat) (ops : list Op) (c : nat) :
  c ∈ self →
  Normal (data_of (accordion config self
                     (run config ops (accordion config self p)))
                  c (data_content_state config))
  = getDefaultState config.
Proof.
  intros Hc. rewrite accordion_state by done. reflexivity.
Qed.

Lemma reinitialization_resets_state_witness :
  1 ∈ [1; 4]
  ∧ data_of (run config [Click 2] (accordion config [1; 4] Sample.page)) 1
      (data_content_state config) = Str "visible"
  ∧ Normal (data_of (accordion config [1; 4]
                       (run config [Click 2]
                          (accordion config [1; 4] Sample.page)))
                    1 (data_content_state config))
    = getDefaultState config.
Proof.
  split; [by left|]. split; [reflexivity|].
  apply (reinitialization_resets_state Sample.page [1; 4] [Click 2] 1).
  by left.
Defined.

(** C5.  With the configuration of the source: once the plugin has been
    called on a collection, then after that call and after every later
    plugin call or handler run, each container of the collection carries
    ['is-accordion--collapsed'] if and only if its persisted state is the
    collapsed value. *)
Theorem marker_follows_state
    (p : Page) (self : list nat) (ops : list Op) (c : nat) :
  c ∈ self →
  "is-accordion--collapsed"
    ∈ classes_of (run config ops (accordion config self p)) c
  ↔ data_of (run config ops (accordion config self p)) c
      (data_content_state config) = Str "collapsed".
Proof.
  intros Hc.
  apply (run_agrees config eq_refl eq_refl eq_refl ops
           (accordion config self p) c).
  by apply accordion_establishes.
Qed.

Lemma marker_follows_state_witness :
  1 ∈ [1; 4]
  ∧ ("is-accordion--collapsed"
       ∈ classes_of (run config [Click 2; Click 5; Init [1]; Click 2]
                       (accordion config [1; 4] Sample.page)) 1
     ↔ data_of (run config [Click 2; Click 5; Init [1]; Click 2]
                  (accordion config [1; 4] Sample.page)) 1
         (data_content_state config) = Str "collapsed").
Proof.
  split; [by left|].
  apply (marker_follows_state Sample.page [1; 4]
           [Click 2; Click 5; Init [1]; Click 2] 1).
  by left.
Defined.

(** C6.  With the configuration of the source.  A container whose trigger
    query is empty: a plugin call on any collection binds no handler to any
    element below it, and a plugin call on it alone binds no handler at
    all.  A container whose content query is empty: [setVisible] and
    [setCollapsed] on it, initial or not, persist the new state and update
    the marker class, and issue no rendering call. *)
Theorem missing_structure_is_soft (p : Page) (c : nat) :
  (getTrigger config p [c] = [] →
   (∀ self t, c ∈ ancestor_ids (doc p) t →
              handlers_of (accordion config self p) t = handlers_of p t)
   ∧ handlers (accordion config [c] p) = handlers p)
  ∧ (getContent config p [c] = [] →
     ∀ initial,
       (data_of (setVisible config [c] initial p) c
          (data_content_state config) = Str "visible"
        ∧ ("is-accordion--collapsed"
             ∉ classes_of (setVisible config [c] initial p) c)
        ∧ rendered (setVisible config [c] initial p) = rendered p)
       ∧ (data_of (setCollapsed config [c] initial p) c
            (data_content_state config) = Str "collapsed"
          ∧ "is-accordion--collapsed"
              ∈ classes_of (setCollapsed config [c] initial p) c
          ∧ rendered (setCollapsed config [c] initial p) = rendered p)).
Proof.
  split.
  - intros Hempty. split.
    + intros self t Hbelow. unfold handlers_of.
      rewrite accordion_handlers, update_each_notin; [done|].
      by eapply find_empty_below.
    + rewrite accordion_handlers. by rewrite Hempty.
  - intros Hempty initial. split; (split; [|split]).
    + by apply (setVisible_state config); [|left].
    + by apply setVisible_marker; left.
    + rewrite setVisible_rendered, Hempty. apply app_nil_r.
    + by apply (setCollapsed_state config); [|left].
    + by apply setCollapsed_marker; left.
    + rewrite setCollapsed_rendered, Hempty. apply app_nil_r.
Qed.

Lemma missing_structure_is_soft_witness :
  getTrigger config Sample.bare_page [1] = []
  ∧ getContent config Sample.bare_page [1] = []
  ∧ 1 ∈ ancestor_ids (doc Sample.bare_page) 2
  ∧ handlers_of (accordion config [1] Sample.bare_page) 2 = 0
  ∧ handlers (accordion config [1] Sample.bare_page) = ∅
  ∧ data_of (setVisible config [1] false Sample.bare_page) 1
      (data_content_state config) = Str "visible"
  ∧ rendered (setVisible config [1] false Sample.bare_page) = []
  ∧ rendered (setCollapsed config [1] true Sample.bare_page) = [].
Proof.
  destruct (missing_structure_is_soft Sample.bare_page 1) as [Ht Hc].
  destruct (Ht eq_refl) as [Hbelow Hall].
  destruct (Hc eq_refl false) as [(Hv & _ & Hrv) _].
  destruct (Hc eq_refl true) as [_ (_ & _ & Hrc)].
  split; [reflexivity|]. split; [reflexivity|]. split; [by left|].
  split; [apply (Hbelow [1] 2); by left|].
  split; [exact Hall|]. split; [exact Hv|]. split; [exact Hrv|exact Hrc].
Defined.

(** C7.  For every configuration: when the clicked trigger resolves to the
    container [c1], that container is the first element carrying the
    container attribute on the walk from the trigger up through its
    ancestors, and a run of the handler changes neither what is persisted
    on any other element [c2] nor its classes. *)
Theorem activation_is_local
    (cfg : Config) (p : Page) (this : nat) (ev : Event) (c1 c2 : nat) :
  getElement cfg p this = [c1] →
  c2 ≠ c1 →
  (∀ key, data_of (page_after (click_handler cfg this ev p)) c2 key
          = data_of p c2 key)
  ∧ classes_of (page_after (click_handler cfg this ev p)) c2 = classes_of p c2
  ∧ ∃ before e after,
      ancestors_or_self (doc p) this = before ++ e :: after
      ∧ node_id e = c1
      ∧ matches (toDataSelector (data_container cfg)) e = true
      ∧ ∀ x, x ∈ before →
             matches (toDataSelector (data_container cfg)) x = false.
Proof.
  intros Hparent Hne.
  destruct (click_handler_frame cfg this ev p c2) as [Hs Hc].
  { rewrite Hparent. by intros ->%list_elem_of_singleton. }
  split; [|split].
  - intros key. unfold data_of. by rewrite Hs.
  - unfold classes_of. by rewrite Hc.
  - by apply closest_nearest.
Qed.

Lemma activation_is_local_witness :
  getElement config Sample.ready 5 = [4]
  ∧ 1 ≠ 4
  ∧ data_of (activate config 5 Sample.ready) 4 (data_content_state config)
    = Str "visible"
  ∧ data_of (activate config 5 Sample.ready) 1 (data_content_state config)
    = data_of Sample.ready 1 (data_content_state config)
  ∧ classes_of (activate config 5 Sample.ready) 1 = classes_of Sample.ready 1.
Proof.
  split; [reflexivity|]. split; [discriminate|]. split; [reflexivity|].
  destruct (activation_is_local config Sample.ready 5 (mkEvent false) 4 1
              eq_refl) as (Hd & Hc & _); [discriminate|].
  split; [apply Hd|exact Hc].
Defined.

(** C8.  When [window.jQuery] is not a function, or [jQuery.fn.accordion]
    already is one, the script throws at its top level: the window is left
    as it was (no plugin function stored, no document-ready callback
    handed over) and the page is untouched. *)
Theorem load_fails_fast (w : Window) (p : Page) :
  typeof (w_jQuery w) ≠ "function"
  ∨ (∃ fn f, w_fn w = Some fn ∧ fn !! "accordion" = Some (Fun f)) →
  ∃ v, load w = (w, Throw v) ∧ boot w p = (w, p, Throw v).
Proof.
  intros H. unfold boot, load.
  destruct (String.eqb (typeof (w_jQuery w)) "function") eqn:E; simpl.
  - destruct H as [H|(fn & f & -> & Hf)].
    + by apply String.eqb_eq in E.
    + unfold get_prop. rewrite Hf. simpl. eauto.
  - eauto.
Qed.

Lemma load_fails_fast_witness :
  typeof (w_jQuery Sample.window_without_jQuery) ≠ "function"
  ∧ (∃ fn f, w_fn Sample.window_with_accordion = Some fn
             ∧ fn !! "accordion" = Some (Fun f))
  ∧ (∃ v, load Sample.window_without_jQuery
          = (Sample.window_without_jQuery, Throw v)
          ∧ boot Sample.window_without_jQuery Sample.page
            = (Sample.window_without_jQuery, Sample.page, Throw v))
  ∧ (∃ v, load Sample.window_with_accordion
          = (Sample.window_with_accordion, Throw v)
          ∧ boot Sample.window_with_accordion Sample.page
            = (Sample.window_with_accordion, Sample.page, Throw v)).
Proof.
  assert (typeof (w_jQuery Sample.window_without_jQuery) ≠ "function") as H1
    by discriminate.
  assert (∃ fn f, w_fn Sample.window_with_accordion = Some fn
                  ∧ fn !! "accordion" = Some (Fun f)) as H2.
  { exists {[ "accordion" := Fun 9 ]}, 9. split; reflexivity. }
  split; [exact H1|]. split; [exact H2|]. split.
  - apply (load_fails_fast Sample.window_without_jQuery Sample.page).
    left. exact H1.
  - apply (load_fails_fast Sample.window_with_accordion Sample.page).
    right. exact H2.
Defined.

(** C9.  For every configuration and container: when the value persisted
    on the container is falsy, [getState] does not return it; it does what
    [getDefaultState] does. *)
Theorem getState_falsy_is_absent
    (cfg : Config) (p : Page) (c : nat) (v : value) :
  store p !! c ≫= (.!! data_content_state cfg) = Some v →
  truthy v = false →
  getState cfg p [c] = getDefaultState cfg.
Proof.
  intros Hv Hfalsy. apply getState_falsy. unfold data_of.
  by rewrite Hv.
Qed.

Lemma getState_falsy_is_absent_witness :
  store Sample.page_empty_state !! 1 ≫= (.!! data_content_state config)
  = Some (Str "")
  ∧ truthy (Str "") = false
  ∧ getState config Sample.page_empty_state [1] = getDefaultState config
  ∧ getDefaultState config = Normal (Str "collapsed").
Proof.
  split; [reflexivity|]. split; [reflexivity|]. split; [|reflexivity].
  apply (getState_falsy_is_absent config Sample.page_empty_state 1 (Str ""));
    reflexivity.
Defined.

(** C10.  For every configuration: when the state [getState] reads for the
    container of the clicked trigger is truthy and is neither the visible
    nor the collapsed value, a run of the handler marks the event's default
    as prevented, returns [false], and leaves the whole page as it was:
    persisted states, classes, rendering calls. *)
Theorem unknown_state_click_is_noop
    (cfg : Config) (p : Page) (this : nat) (ev : Event) (s : value) :
  getState cfg p (getElement cfg p this) = Normal s →
  truthy s = true →
  s ≠ get_prop (states cfg) "visible" →
  s ≠ get_prop (states cfg) "collapsed" →
  click_handler cfg this ev p
  = mkOutcome p (mkEvent true) (Normal (Bool false)).
Proof.
  intros Hstate _ Hv Hc. unfold click_handler. rewrite Hstate.
  unfold isCollapsed, isVisible.
  destruct (strict_eq s (get_prop (states cfg) "collapsed")) eqn:Ec.
  { by apply strict_eq_true in Ec. }
  destruct (strict_eq s (get_prop (states cfg) "visible")) eqn:Ev.
  { by apply strict_eq_true in Ev. }
  done.
Qed.

Lemma unknown_state_click_is_noop_witness :
  getState config Sample.page_odd_state
    (getElement config Sample.page_odd_state 2)
  = Normal (Str "open")
  ∧ truthy (Str "open") = true
  ∧ Str "open" ≠ get_prop (states config) "visible"
  ∧ Str "open" ≠ get_prop (states config) "collapsed"
  ∧ click_handler config 2 (mkEvent false) Sample.page_odd_state
    = mkOutcome Sample.page_odd_state (mkEvent true) (Normal (Bool false)).
Proof.
  split; [reflexivity|]. split; [reflexivity|].
  split; [discriminate|]. split; [discriminate|].
  apply (unknown_state_click_is_noop config Sample.page_odd_state 2
           (mkEvent false) (Str "open"));
    [reflexivity|reflexivity|discriminate|discriminate].
Defined.

(** * Further properties of the plugin *)

(** ** Helper facts *)

Lemma append_bracket_inj (a b : string) : a +:+ "]" = b +:+ "]" → a = b.
Proof.
  revert b. induction a as [|x a IH]; intros [|y b]; simpl; try done.
  - intros [= _ H]. by destruct b.
  - intros [= _ H]. by destruct a.
  - intros [= -> H]. f_equal. by apply IH.
Qed.

Lemma matches_attribute (name : string) (e : Node) :
  matches ("[" +:+ name +:+ "]") e = true ↔ name ∈ node_attrs e.
Proof.
  unfold matches. rewrite existsb_exists. split.
  - intros (a & Hin & Heq). apply String.eqb_eq in Heq. simpl in Heq.
    injection Heq as Heq. apply append_bracket_inj in Heq as ->.
    by apply list_elem_of_In.
  - intros Hin. exists name. split; [by apply list_elem_of_In|].
    apply String.eqb_refl.
Qed.

Lemma page_eta (p : Page) :
  mkPage (doc p) (store p) (classes p) (handlers p) (rendered p) = p.
Proof. by destruct p. Qed.

Lemma find_no_roots p sel : jQuery.find p [] sel = [].
Proof.
  unfold jQuery.find.
  induction (all_nodes (doc p)) as [|e l IH]; [done|].
  cbn [List.filter existsb]. by rewrite andb_false_r.
Qed.

Lemma set_data_nobody key v p : jQuery.set_data [] key v p = p.
Proof. destruct v; try done; apply page_eta. Qed.

Lemma setVisible_nobody cfg initial p : setVisible cfg [] initial p = p.
Proof.
  unfold setVisible, getContent. rewrite set_data_nobody, !find_no_roots.
  unfold jQuery.removeClass, jQuery.map_classes, jQuery.render. simpl.
  rewrite app_nil_r. destruct initial; apply page_eta.
Qed.

Lemma setCollapsed_nobody cfg initial p : setCollapsed cfg [] initial p = p.
Proof.
  unfold setCollapsed, getContent. rewrite set_data_nobody, !find_no_roots.
  unfold jQuery.addClass, jQuery.map_classes, jQuery.render. simpl.
  rewrite app_nil_r. destruct initial; apply page_eta.
Qed.

Lemma setDefault_nobody cfg p : setDefault cfg [] p = p.
Proof.
  unfold setDefault. destruct (isCollapsed _ _); [apply setCollapsed_nobody|].
  destruct (isVisible _ _); [apply setVisible_nobody|done].
Qed.

Lemma getDefaultState_message cfg v :
  getDefaultState cfg = Throw v →
  v = Str "No default state found for accordion.".
Proof.
  unfold getDefaultState. destruct (negb _); [by intros [= <-]|done].
Qed.

Lemma config_getState_total p element :
  ∃ s, getState config p element = Normal s ∧ truthy s = true.
Proof.
  unfold getState. destruct (truthy _) eqn:E; [eauto|].
  exists (Str "collapsed"). done.
Qed.

Lemma addClass_nobody cls p : jQuery.addClass [] cls p = p.
Proof. apply page_eta. Qed.

Lemma on_click_nobody p : jQuery.on_click [] p = p.
Proof. apply page_eta. Qed.

Lemma accordion_nobody cfg p : accordion cfg [] p = p.
Proof.
  unfold accordion, getContent, getTrigger.
  rewrite setDefault_nobody, addClass_nobody, !find_no_roots.
  by rewrite !addClass_nobody, on_click_nobody.
Qed.

(** ** The click handler *)

(** X2.  Whatever the configuration and the page, a run of the click
    handler marks the event's default as prevented; when it throws, the
    error is the missing-default message and the page is exactly as before;
    when it completes it returns [false]. *)
Theorem click_handler_exception_safe
    (cfg : Config) (this : nat) (ev : Event) (p : Page) :
  defaultPrevented (event_after (click_handler cfg this ev p)) = true
  ∧ (∀ v, result (click_handler cfg this ev p) = Throw v →
          page_after (click_handler cfg this ev p) = p
          ∧ v = Str "No default state found for accordion.")
  ∧ (∀ v, result (click_handler cfg this ev p) = Normal v → v = Bool false).
Proof.
  split; [apply click_handler_prevents_default|].
  destruct (click_handler_cases cfg this ev p)
    as [[Hp [Hr|[Hr [w Hw]]]]|[[Hp Hr]|[Hp Hr]]]; rewrite Hr; split;
    try (intros v [= <-]; done); try done.
  - rewrite Hw. intros v [= <-]. split; [done|].
    by eapply getDefaultState_message.
  - by rewrite Hw.
Qed.

Lemma click_handler_exception_safe_witness :
  result (click_handler Sample.bad_config 2 (mkEvent false) Sample.page)
  = Throw (Str "No default state found for accordion.")
  ∧ page_after (click_handler Sample.bad_config 2 (mkEvent false) Sample.page)
    = Sample.page
  ∧ defaultPrevented
      (event_after (click_handler Sample.bad_config 2 (mkEvent false)
                      Sample.page)) = true.
Proof.
  destruct (click_handler_exception_safe Sample.bad_config 2 (mkEvent false)
              Sample.page) as (Hprev & Hthrow & _).
  split; [reflexivity|]. split; [|exact Hprev].
  apply (Hthrow (Str "No default state found for accordion.")). reflexivity.
Defined.

(** X3.  For every configuration, page and collection, a value [getState]
    returns is truthy: a falsy state never reaches the handler's tests. *)
Theorem getState_never_falsy
    (cfg : Config) (p : Page) (element : list nat) (s : value) :
  getState cfg p element = Normal s → truthy s = true.
Proof. apply getState_Normal_truthy. Qed.

Lemma getState_never_falsy_witness :
  getState config Sample.page_empty_state [1] = Normal (Str "collapsed")
  ∧ truthy (Str "collapsed") = true.
Proof.
  split; [reflexivity|].
  apply (getState_never_falsy config Sample.page_empty_state [1]
           (Str "collapsed")).
  reflexivity.
Defined.

(** X4.  With the configuration of the source the missing-default error
    cannot occur: on every page and for every collection [getState] returns
    a value, and every run of the click handler completes, returning
    [false]. *)
Theorem shipped_config_never_throws
    (p : Page) (element : list nat) (this : nat) (ev : Event) :
  (∃ s, getState config p element = Normal s)
  ∧ result (click_handler config this ev p) = Normal (Bool false).
Proof.
  split.
  - destruct (config_getState_total p element) as (s & Hs & _). eauto.
  - destruct (click_handler_cases config this ev p)
      as [[_ [Hr|[_ [w Hw]]]]|[[_ Hr]|[_ Hr]]]; try done.
Qed.

(** X5.  With the configuration of the source, a click on a trigger that
    has no ancestor carrying the container attribute changes nothing: the
    handler prevents the default, returns [false] and leaves the page as it
    was. *)
Theorem click_outside_any_accordion (p : Page) (this : nat) (ev : Event) :
  getElement config p this = [] →
  click_handler config this ev p
  = mkOutcome p (mkEvent true) (Normal (Bool false)).
Proof.
  intros Hparent. unfold click_handler. rewrite Hparent.
  change (getState config p []) with (@Normal value (Str "collapsed")).
  change (isCollapsed config (Str "collapsed")) with true.
  cbn match. by rewrite setVisible_nobody.
Qed.

Lemma click_outside_any_accordion_witness :
  getElement config Scenes.orphan_page 1 = []
  ∧ click_handler config 1 (mkEvent false) Scenes.orphan_page
    = mkOutcome Scenes.orphan_page (mkEvent true) (Normal (Bool false)).
Proof.
  split; [reflexivity|].
  apply (click_outside_any_accordion Scenes.orphan_page 1 (mkEvent false)).
  reflexivity.
Defined.

(** ** Initialization *)

(** X6.  For every configuration, calling the plugin on an empty
    collection leaves the page as it was; so the document-ready callback
    does nothing on a document without accordion containers. *)
Theorem accordion_on_empty_collection (cfg : Config) (p : Page) :
  accordion cfg [] p = p
  ∧ (jQuery.select p "[data-js-accordion]" = [] → on_ready p = p).
Proof.
  split; [apply accordion_nobody|].
  intros H. unfold on_ready. rewrite H. apply accordion_nobody.
Qed.

Lemma accordion_on_empty_collection_witness :
  jQuery.select Scenes.orphan_page "[data-js-accordion]" = []
  ∧ on_ready Scenes.orphan_page = Scenes.orphan_page.
Proof.
  split; [reflexivity|].
  apply (accordion_on_empty_collection config Scenes.orphan_page).
  reflexivity.
Defined.

(** ** What the plugin leaves to the page's author *)

Lemma removeClass_other coll cls p n c :
  c ≠ cls →
  c ∈ classes_of (jQuery.removeClass coll cls p) n ↔ c ∈ classes_of p n.
Proof.
  intros Hc. destruct (decide (n ∈ coll)).
  - rewrite removeClass_in by done. rewrite elem_of_remove_class. tauto.
  - unfold classes_of, jQuery.removeClass. by rewrite map_classes_notin.
Qed.

Lemma setVisible_other_class cfg element initial p n c :
  c ≠ "is-accordion--collapsed" →
  c ∈ classes_of (setVisible cfg element initial p) n ↔ c ∈ classes_of p n.
Proof.
  intros Hc. unfold classes_of at 1. rewrite setVisible_classes.
  by apply removeClass_other.
Qed.

Lemma setCollapsed_other_class cfg element initial p n c :
  c ≠ "is-accordion--collapsed" →
  c ∈ classes_of (setCollapsed cfg element initial p) n ↔ c ∈ classes_of p n.
Proof.
  intros Hc. unfold classes_of at 1. rewrite setCollapsed_classes.
  by apply addClass_other.
Qed.

Lemma setDefault_cases cfg elements p :
  setDefault cfg elements p = p
  ∨ setDefault cfg elements p = setCollapsed cfg elements true p
  ∨ setDefault cfg elements p = setVisible cfg elements true p.
Proof.
  unfold setDefault. destruct (isCollapsed _ _); [auto|].
  destruct (isVisible _ _); auto.
Qed.

Lemma set_data_read_other_key coll key v p n key' :
  key' ≠ key →
  data_of (jQuery.set_data coll key v p) n key' = data_of p n key'.
Proof.
  intros Hk. destruct (decide (n ∈ coll)) as [Hin|Hout];
    [|by apply set_data_read_notin].
  unfold data_of. destruct (decide (v = Undefined)) as [->|Hv]; [done|].
  assert (store (jQuery.set_data coll key v p) !! n
          = Some (<[key := v]> (default ∅ (store p !! n)))) as ->.
  { destruct v; try done; simpl; apply update_each_in; try done;
      intros; apply insert_insert_eq. }
  simpl. rewrite lookup_insert_ne by done.
  by destruct (store p !! n).
Qed.

Lemma setVisible_other_key cfg element initial p n key :
  key ≠ data_content_state cfg →
  data_of (setVisible cfg element initial p) n key = data_of p n key.
Proof.
  intros Hk. unfold data_of at 1. rewrite setVisible_store.
  by apply set_data_read_other_key.
Qed.

Lemma setCollapsed_other_key cfg element initial p n key :
  key ≠ data_content_state cfg →
  data_of (setCollapsed cfg element initial p) n key = data_of p n key.
Proof.
  intros Hk. unfold data_of at 1. rewrite setCollapsed_store.
  by apply set_data_read_other_key.
Qed.

(** X7.  For every configuration, the only class the plugin ever takes
    away is ['is-accordion--collapsed']: any other class an element has
    survives a plugin call, and a run of the click handler neither adds nor
    removes any other class, on any element. *)
Theorem foreign_classes_survive
    (cfg : Config) (self : list nat) (this : nat) (ev : Event) (p : Page)
    (n : nat) (cls : string) :
  cls ≠ "is-accordion--collapsed" →
  (cls ∈ classes_of p n → cls ∈ classes_of (accordion cfg self p) n)
  ∧ (cls ∈ classes_of (page_after (click_handler cfg this ev p)) n
     ↔ cls ∈ classes_of p n).
Proof.
  intros Hcls. split.
  - intros Hin. unfold accordion.
    change (classes_of (jQuery.on_click ?t ?q) n) with (classes_of q n).
    do 3 apply addClass_keeps.
    destruct (setDefault_cases cfg self p) as [->|[->| ->]]; [done| |].
    + by apply setCollapsed_other_class.
    + by apply setVisible_other_class.
  - destruct (click_handler_cases cfg this ev p)
      as [[-> _]|[[-> _]|[-> _]]]; [done| |].
    + by apply setVisible_other_class.
    + by apply setCollapsed_other_class.
Qed.

Lemma foreign_classes_survive_witness :
  "panel" ≠ "is-accordion--collapsed"
  ∧ "panel" ∈ classes_of Scenes.authored_page 1
  ∧ "panel" ∈ classes_of (accordion config [1; 4] Scenes.authored_page) 1
  ∧ ("panel" ∈ classes_of
               (page_after (click_handler config 2 (mkEvent false)
                              (accordion config [1; 4] Scenes.authored_page)))
               1
     ↔ "panel" ∈ classes_of (accordion config [1; 4] Scenes.authored_page) 1).
Proof.
  assert ("panel" ≠ "is-accordion--collapsed") as Hne by discriminate.
  assert ("panel" ∈ classes_of Scenes.authored_page 1) as Hin by (by left).
  split; [exact Hne|]. split; [exact Hin|]. split.
  - by apply (foreign_classes_survive config [1; 4] 2 (mkEvent false)
                Scenes.authored_page 1 "panel" Hne).
  - by apply (foreign_classes_survive config [1; 4] 2 (mkEvent false)
                (accordion config [1; 4] Scenes.authored_page) 1 "panel" Hne).
Defined.

(** X8.  For every configuration, the plugin writes one datum only, the
    one the configured state key names: what any element holds under a key
    that names another datum (a key that still differs from the state key
    once hyphens are dropped and capitals lowered, so that camel-casing
    cannot identify the two) is the same after a plugin call and after a
    run of the click handler. *)
Theorem foreign_data_untouched
    (cfg : Config) (self : list nat) (this : nat) (ev : Event) (p : Page)
    (n : nat) (key : string) :
  datum_name key ≠ datum_name (data_content_state cfg) →
  data_of (accordion cfg self p) n key = data_of p n key
  ∧ data_of (page_after (click_handler cfg this ev p)) n key = data_of p n key.
Proof.
  intros Hname.
  assert (key ≠ data_content_state cfg) as Hk by (by intros ->).
  split.
  - unfold data_of at 1. rewrite accordion_store.
    fold (data_of (setDefault cfg self p) n key).
    destruct (setDefault_cases cfg self p) as [->|[->| ->]]; [done| |].
    + by apply setCollapsed_other_key.
    + by apply setVisible_other_key.
  - destruct (click_handler_cases cfg this ev p)
      as [[-> _]|[[-> _]|[-> _]]]; [done| |].
    + by apply setVisible_other_key.
    + by apply setCollapsed_other_key.
Qed.

Lemma foreign_data_untouched_witness :
  datum_name "owner" ≠ datum_name (data_content_state config)
  ∧ datum_name "jsAccordionContentState"
    = datum_name (data_content_state config)
  ∧ data_of (accordion config [1; 4] Scenes.authored_page) 1 "owner"
    = Str "menu"
  ∧ data_of (page_after (click_handler config 2 (mkEvent false)
                           (accordion config [1; 4] Scenes.authored_page)))
      1 "owner" = Str "menu".
Proof.
  assert (datum_name "owner" ≠ datum_name (data_content_state config))
    as Hne by (vm_compute; discriminate).
  split; [exact Hne|]. split; [reflexivity|].
  destruct (foreign_data_untouched config [1; 4] 2 (mkEvent false)
              Scenes.authored_page 1 "owner" Hne) as [Hinit _].
  destruct (foreign_data_untouched config [1; 4] 2 (mkEvent false)
              (accordion config [1; 4] Scenes.authored_page) 1 "owner" Hne)
    as [_ Hclick].
  split; [exact Hinit|]. rewrite Hclick. exact Hinit.
Defined.

(** ** The default at initialization *)

(** X9.  [setDefault] compares the default key itself, not the value it
    maps to, with the two state values.  So for every configuration whose
    default key is neither the visible nor the collapsed value, a plugin
    call persists no state and issues no rendering call, even when the
    default key resolves to a state value. *)
Theorem setDefault_uses_raw_key
    (cfg : Config) (self : list nat) (p : Page) :
  get_prop (states cfg) "default" ≠ get_prop (states cfg) "collapsed" →
  get_prop (states cfg) "default" ≠ get_prop (states cfg) "visible" →
  store (accordion cfg self p) = store p
  ∧ rendered (accordion cfg self p) = rendered p
  ∧ ∀ n, "is-accordion--collapsed" ∈ classes_of (accordion cfg self p) n
         ↔ "is-accordion--collapsed" ∈ classes_of p n.
Proof.
  intros Hc Hv.
  assert (setDefault cfg self p = p) as Hdefault.
  { unfold setDefault, isCollapsed, isVisible.
    destruct (strict_eq _ (get_prop (states cfg) "collapsed")) eqn:Ec.
    { by apply strict_eq_true in Ec. }
    destruct (strict_eq _ (get_prop (states cfg) "visible")) eqn:Ev.
    { by apply strict_eq_true in Ev. }
    done. }
  rewrite accordion_store, accordion_rendered, Hdefault.
  split; [done|]. split; [done|]. intros n. unfold accordion.
  change (classes_of (jQuery.on_click ?t ?q) n) with (classes_of q n).
  rewrite !addClass_other by discriminate. by rewrite Hdefault.
Qed.

Lemma setDefault_uses_raw_key_witness :
  getDefaultState Scenes.renamed_config = Normal (Str "closed")
  ∧ get_prop (states Scenes.renamed_config) "default"
    ≠ get_prop (states Scenes.renamed_config) "collapsed"
  ∧ get_prop (states Scenes.renamed_config) "default"
    ≠ get_prop (states Scenes.renamed_config) "visible"
  ∧ store (accordion Scenes.renamed_config [1; 4] Sample.page) = ∅
  ∧ rendered (accordion Scenes.renamed_config [1; 4] Sample.page) = [].
Proof.
  assert (get_prop (states Scenes.renamed_config) "default"
          ≠ get_prop (states Scenes.renamed_config) "collapsed") as H1
    by discriminate.
  assert (get_prop (states Scenes.renamed_config) "default"
          ≠ get_prop (states Scenes.renamed_config) "visible") as H2
    by discriminate.
  destruct (setDefault_uses_raw_key Scenes.renamed_config [1; 4] Sample.page
              H1 H2) as (Hs & Hr & _).
  split; [reflexivity|]. split; [exact H1|]. split; [exact H2|].
  split; [exact Hs|exact Hr].
Defined.

(** ** What initialization applies *)

(** X10.  For every configuration, after a plugin call every element of
    the collection carries ['is-accordion'], every trigger found under it
    carries ['is-accordion-trigger'] and every content element found under
    it carries ['is-accordion-content']: all matches are tagged, not the
    first one only. *)
Theorem initialization_tags_every_match
    (cfg : Config) (self : list nat) (p : Page) :
  (∀ c, c ∈ self → "is-accordion" ∈ classes_of (accordion cfg self p) c)
  ∧ (∀ t, t ∈ getTrigger cfg p self →
          "is-accordion-trigger" ∈ classes_of (accordion cfg self p) t)
  ∧ (∀ n, n ∈ getContent cfg p self →
          "is-accordion-content" ∈ classes_of (accordion cfg self p) n).
Proof.
  split; [|split].
  - intros c Hc. by apply accordion_is_accordion.
  - intros t Ht. rewrite accordion_classes_unfold.
    rewrite addClass_in by done. apply elem_of_add_class. by left.
  - intros n Hn. rewrite accordion_classes_unfold.
    apply addClass_keeps. rewrite addClass_in by done.
    apply elem_of_add_class. by left.
Qed.

Lemma initialization_tags_every_match_witness :
  5 ∈ getTrigger config Sample.page [1; 4]
  ∧ 6 ∈ getContent config Sample.page [1; 4]
  ∧ "is-accordion-trigger" ∈ classes_of (accordion config [1; 4] Sample.page) 5
  ∧ "is-accordion-content" ∈ classes_of (accordion config [1; 4] Sample.page) 6.
Proof.
  destruct (initialization_tags_every_match config [1; 4] Sample.page)
    as (_ & Ht & Hc).
  assert (5 ∈ getTrigger config Sample.page [1; 4]) as H5
    by (right; left).
  assert (6 ∈ getContent config Sample.page [1; 4]) as H6
    by (right; left).
  split; [exact H5|]. split; [exact H6|].
  split; [exact (Ht 5 H5)|exact (Hc 6 H6)].
Defined.

(** ** Rendering calls *)

(** X11.  For every configuration, the plugin only ever appends to the
    rendering log.  A plugin call issues only the instant calls [show(0)]
    and [hide(0)], on content elements of its collection; a run of the
    click handler issues only the animated calls [stop().slideDown] and
    [stop().slideUp], on content elements of the resolved container. *)
Theorem rendering_intents
    (cfg : Config) (self : list nat) (this : nat) (ev : Event) (p : Page) :
  (∃ calls,
     rendered (accordion cfg self p) = rendered p ++ calls
     ∧ ∀ n r, (n, r) ∈ calls →
              (r = Show0 ∨ r = Hide0) ∧ n ∈ getContent cfg p self)
  ∧ (∃ calls,
       rendered (page_after (click_handler cfg this ev p))
       = rendered p ++ calls
       ∧ ∀ n r, (n, r) ∈ calls →
                (r = StopSlideDown ∨ r = StopSlideUp)
                ∧ n ∈ getContent cfg p (getElement cfg p this)).
Proof.
  split.
  - rewrite accordion_rendered.
    destruct (setDefault_cases cfg self p) as [->|[->| ->]].
    + exists []. split; [by rewrite app_nil_r|].
      intros n r H. by apply elem_of_nil in H.
    + rewrite setCollapsed_rendered. eexists. split; [done|].
      intros n r (m & [= -> ->] & Hm)%list_elem_of_fmap. auto.
    + rewrite setVisible_rendered. eexists. split; [done|].
      intros n r (m & [= -> ->] & Hm)%list_elem_of_fmap. auto.
  - destruct (click_handler_cases cfg this ev p)
      as [[-> _]|[[-> _]|[-> _]]].
    + exists []. split; [by rewrite app_nil_r|].
      intros n r H. by apply elem_of_nil in H.
    + rewrite setVisible_rendered. eexists. split; [done|].
      intros n r (m & [= -> ->] & Hm)%list_elem_of_fmap. auto.
    + rewrite setCollapsed_rendered. eexists. split; [done|].
      intros n r (m & [= -> ->] & Hm)%list_elem_of_fmap. auto.
Qed.

(** X12.  With the configuration of the source, a plugin call hides every
    content element found under its collection, instantly and once, in
    document order, and issues no other rendering call. *)
Theorem initialization_hides_content (self : list nat) (p : Page) :
  rendered (accordion config self p)
  = rendered p ++ ((fun n => (n, Hide0)) <$> getContent config p self).
Proof.
  rewrite accordion_rendered, config_setDefault.
  apply setCollapsed_rendered.
Qed.

(** X13.  With the configuration of the source, a run of the click handler
    on a trigger resolving to the container [c] slides the content elements
    under [c] down when [c] was collapsed and up when it was visible, after
    stopping their running animation, and issues no other rendering
    call. *)
Theorem click_animates_content
    (p : Page) (this c : nat) (ev : Event) (s : value) :
  getElement config p this = [c] →
  s = Str "visible" ∨ s = Str "collapsed" →
  data_of p c (data_content_state config) = s →
  rendered (page_after (click_handler config this ev p))
  = rendered p ++
    ((fun n => (n, if decide (s = Str "collapsed")
                   then StopSlideDown else StopSlideUp))
       <$> getContent config p [c]).
Proof.
  intros Hparent [-> | ->] Hstate.
  - rewrite (click_on_visible config eq_refl eq_refl eq_refl p this ev c)
      by done.
    cbn [page_after]. by rewrite setCollapsed_rendered.
  - rewrite (click_on_collapsed config eq_refl p this ev c) by done.
    cbn [page_after]. by rewrite setVisible_rendered.
Qed.

Lemma click_animates_content_witness :
  getElement config Sample.ready 2 = [1]
  ∧ data_of Sample.ready 1 (data_content_state config) = Str "collapsed"
  ∧ rendered (page_after (click_handler config 2 (mkEvent false) Sample.ready))
    = [(3, Hide0); (6, Hide0); (3, StopSlideDown)].
Proof.
  split; [reflexivity|]. split; [reflexivity|].
  apply (click_animates_content Sample.ready 2 1 (mkEvent false)
           (Str "collapsed") eq_refl (or_intror eq_refl) eq_refl).
Defined.

(** ** Bound handlers *)

Lemma update_each_S_once coll (m : gmap nat nat) n :
  NoDup coll → n ∈ coll →
  default 0 (update_each 0 S coll m !! n) = S (default 0 (m !! n)).
Proof.
  induction coll as [|a coll IH]; simpl.
  - intros _ H. by apply elem_of_nil in H.
  - intros [Ha Hnd]%NoDup_cons Hin. destruct (decide (a = n)) as [->|Hne].
    + rewrite lookup_insert_eq. simpl. by rewrite update_each_notin.
    + rewrite lookup_insert_ne by done. apply IH; [done|].
      apply elem_of_cons in Hin as [?|?]; [congruence|done].
Qed.

Lemma NoDup_fmap_filter {A B} (g : A → B) (f : A → bool) (l : list A) :
  NoDup (g <$> l) → NoDup (g <$> List.filter f l).
Proof.
  induction l as [|a l IH]; simpl; [done|].
  intros [Ha Hnd]%NoDup_cons. destruct (f a); [|by apply IH].
  simpl. apply NoDup_cons. split; [|by apply IH].
  intros (x & Hx & Hin)%list_elem_of_fmap. apply Ha.
  apply list_elem_of_fmap. exists x. split; [done|].
  apply list_elem_of_In. apply list_elem_of_In, filter_In in Hin. tauto.
Qed.

Lemma find_NoDup p roots sel :
  distinct_ids (doc p) → NoDup (jQuery.find p roots sel).
Proof. apply NoDup_fmap_filter. Qed.

(** X14.  In a document whose elements are distinct, a plugin call binds
    exactly one more click handler to every trigger found under its
    collection, however many elements of the collection contain it, and
    none to any other element. *)
Theorem initialization_binds_once
    (cfg : Config) (self : list nat) (p : Page) (t : nat) :
  distinct_ids (doc p) →
  handlers_of (accordion cfg self p) t
  = if bool_decide (t ∈ getTrigger cfg p self)
    then S (handlers_of p t) else handlers_of p t.
Proof.
  intros Hdistinct. unfold handlers_of. rewrite accordion_handlers.
  case_bool_decide as Ht.
  - apply update_each_S_once; [|done]. by apply find_NoDup.
  - by rewrite update_each_notin.
Qed.

Lemma initialization_binds_once_witness :
  distinct_ids (doc Scenes.nested_page)
  ∧ getTrigger config Scenes.nested_page [1; 4] = [2; 5]
  ∧ handlers_of (accordion config [1; 4] Scenes.nested_page) 5 = 1
  ∧ handlers_of (accordion config [1; 4] Scenes.nested_page) 3 = 0.
Proof.
  assert (distinct_ids (doc Scenes.nested_page)) as Hd.
  { apply (bool_decide_unpack _). vm_compute. exact I. }
  split; [exact Hd|]. split; [reflexivity|]. split.
  - apply (initialization_binds_once config [1; 4] Scenes.nested_page 5 Hd).
  - apply (initialization_binds_once config [1; 4] Scenes.nested_page 3 Hd).
Defined.

(** ** Calling the plugin again *)

Lemma addClass_present coll cls p n :
  (n ∈ coll → cls ∈ classes_of p n) →
  classes_of (jQuery.addClass coll cls p) n = classes_of p n.
Proof.
  intros H. destruct (decide (n ∈ coll)) as [Hin|Hout].
  - rewrite addClass_in by done. unfold jQuery.add_class.
    by rewrite bool_decide_eq_true_2 by auto.
  - by apply addClass_notin.
Qed.

Lemma accordion_config_rendered self p :
  rendered (accordion config self p)
  = rendered p ++ ((fun n => (n, Hide0)) <$> getContent config p self).
Proof.
  rewrite accordion_rendered, config_setDefault.
  apply setCollapsed_rendered.
Qed.

Lemma accordion_config_data self p n key :
  data_of (accordion config self p) n key
  = if bool_decide (n ∈ self ∧ key = data_content_state config)
    then Str "collapsed" else data_of p n key.
Proof.
  case_bool_decide as H.
  - destruct H as [Hn ->]. by apply accordion_state.
  - unfold data_of at 1. rewrite accordion_store, config_setDefault.
    fold (data_of (setCollapsed config self true p) n key).
    destruct (decide (key = data_content_state config)) as [->|Hk].
    + unfold data_of at 1. rewrite setCollapsed_store.
      apply set_data_read_notin. tauto.
    + by apply setCollapsed_other_key.
Qed.

(** X15.  With the configuration of the source, calling the plugin a
    second time on the same collection changes no persisted datum and no
    class list, but it is not free of effects: every content element is
    hidden once more, and every trigger has more handlers bound than
    before. *)
Theorem second_call_restacks (self : list nat) (p : Page) :
  (∀ n key,
     data_of (accordion config self (accordion config self p)) n key
     = data_of (accordion config self p) n key)
  ∧ (∀ n,
       classes_of (accordion config self (accordion config self p)) n
       = classes_of (accordion config self p) n)
  ∧ rendered (accordion config self (accordion config self p))
    = rendered (accordion config self p)
      ++ ((fun n => (n, Hide0)) <$> getContent config p self)
  ∧ (∀ t, t ∈ getTrigger config p self →
          handlers_of (accordion config self p) t
          < handlers_of (accordion config self (accordion config self p)) t).
Proof.
  set (q := accordion config self p).
  assert (doc q = doc p) as Hdoc by apply accordion_doc.
  split; [|split; [|split]].
  - intros n key. rewrite accordion_config_data.
    case_bool_decide as H; [|done].
    destruct H as [Hn ->]. symmetry. by apply accordion_state.
  - intros n. rewrite accordion_classes_unfold, config_setDefault.
    rewrite (getTrigger_doc config q p), (getContent_doc config q p) by done.
    assert (classes_of (setCollapsed config self true q) n = classes_of q n)
      as H0.
    { unfold classes_of at 1. rewrite setCollapsed_classes.
      apply addClass_present. intros Hn. by apply accordion_marker. }
    rewrite addClass_present; [rewrite addClass_present;
      [rewrite addClass_present; [done|]|]|].
    + intros Hn. rewrite H0. by apply accordion_is_accordion.
    + intros Hn. rewrite addClass_present.
      * rewrite H0. unfold q. rewrite accordion_classes_unfold.
        apply addClass_keeps. rewrite addClass_in by done.
        apply elem_of_add_class. by left.
      * intros Hs. rewrite H0. by apply accordion_is_accordion.
    + intros Hn. rewrite addClass_present; [rewrite addClass_present|].
      * rewrite H0. unfold q. rewrite accordion_classes_unfold.
        rewrite addClass_in by done. apply elem_of_add_class. by left.
      * intros Hs. rewrite H0. by apply accordion_is_accordion.
      * intros Hc. rewrite addClass_present.
        -- rewrite H0. unfold q. rewrite accordion_classes_unfold.
           apply addClass_keeps. rewrite addClass_in by done.
           apply elem_of_add_class. by left.
        -- intros Hs. rewrite H0. by apply accordion_is_accordion.
  - rewrite accordion_config_rendered.
    by rewrite (getContent_doc config q p).
  - intros t Ht. unfold handlers_of at 2. rewrite accordion_handlers.
    apply update_each_S_grows. by rewrite (getTrigger_doc config q p).
Qed.

Lemma second_call_restacks_witness :
  2 ∈ getTrigger config Sample.page [1; 4]
  ∧ handlers_of (accordion config [1; 4] Sample.page) 2
    < handlers_of
        (accordion config [1; 4] (accordion config [1; 4] Sample.page)) 2
  ∧ classes_of (accordion config [1; 4] (accordion config [1; 4] Sample.page)) 1
    = classes_of (accordion config [1; 4] Sample.page) 1.
Proof.
  destruct (second_call_restacks [1; 4] Sample.page) as (_ & Hc & _ & Hh).
  assert (2 ∈ getTrigger config Sample.page [1; 4]) as H2 by (by left).
  split; [exact H2|]. split; [exact (Hh 2 H2)|exact (Hc 1)].
Defined.

(** ** Loading the script *)

(** X17.  When the script loads without throwing, it has stored the plugin
    function under [jQuery.fn.accordion], kept every other property of
    [jQuery.fn], left [window.jQuery] alone and handed jQuery one
    document-ready callback; loading the script again into the window it
    left throws the namespace error and changes nothing. *)
Theorem load_registers_once (w w' : Window) :
  load w = (w', Normal tt) →
  w_jQuery w' = w_jQuery w
  ∧ w_ready w' = S (w_ready w)
  ∧ (∃ fn fn', w_fn w = Some fn ∧ w_fn w' = Some fn'
               ∧ fn' !! "accordion" = Some (Fun accordion_ref)
               ∧ ∀ k, k ≠ "accordion" → fn' !! k = fn !! k)
  ∧ load w'
    = (w', Throw (Str
         "The jQuery plugin namespace 'accordion' is already taken!")).
Proof.
  unfold load at 1.
  destruct (negb (String.eqb (typeof (w_jQuery w)) "function")) eqn:Ej;
    [done|].
  destruct (w_fn w) as [fn|] eqn:Efn; [|done].
  destruct (String.eqb (typeof (get_prop fn "accordion")) "function");
    [done|].
  intros [= <-]. simpl. split; [done|]. split; [done|]. split.
  - exists fn, (<["accordion" := Fun accordion_ref]> fn).
    split; [done|]. split; [done|]. split; [apply lookup_insert_eq|].
    intros k Hk. by apply lookup_insert_ne.
  - unfold load. simpl. rewrite Ej.
    unfold get_prop. by rewrite lookup_insert_eq.
Qed.

Lemma load_registers_once_witness :
  load Sample.window_fresh
  = (mkWindow (Fun 7) (Some {[ "accordion" := Fun accordion_ref ]}) 1,
     Normal tt)
  ∧ load (mkWindow (Fun 7) (Some {[ "accordion" := Fun accordion_ref ]}) 1)
    = (mkWindow (Fun 7) (Some {[ "accordion" := Fun accordion_ref ]}) 1,
       Throw (Str "The jQuery plugin namespace 'accordion' is already taken!")).
Proof.
  split; [reflexivity|].
  apply (load_registers_once Sample.window_fresh
           (mkWindow (Fun 7) (Some {[ "accordion" := Fun accordion_ref ]}) 1)).
  reflexivity.
Defined.

(** ** The document-ready callback *)

Lemma select_intro p (name : string) e :
  e ∈ all_nodes (doc p) → name ∈ node_attrs e →
  node_id e ∈ jQuery.select p ("[" +:+ name +:+ "]").
Proof.
  intros Hin Hattr. unfold jQuery.select. apply list_elem_of_fmap.
  exists e. split; [done|]. apply list_elem_of_In, filter_In.
  split; [by apply list_elem_of_In|]. by apply matches_attribute.
Qed.

(** X18.  The document-ready callback initializes every element of the
    document that has the attribute ['data-js-accordion'], wherever it
    sits: afterwards each one holds the collapsed state and carries
    ['is-accordion'] and ['is-accordion--collapsed']. *)
Theorem on_ready_initializes_every_container (p : Page) (e : Node) :
  e ∈ all_nodes (doc p) →
  "data-js-accordion" ∈ node_attrs e →
  data_of (on_ready p) (node_id e) (data_content_state config)
  = Str "collapsed"
  ∧ "is-accordion" ∈ classes_of (on_ready p) (node_id e)
  ∧ "is-accordion--collapsed" ∈ classes_of (on_ready p) (node_id e).
Proof.
  intros Hin Hattr.
  pose proof (select_intro p "data-js-accordion" e Hin Hattr) as Hsel.
  unfold on_ready. split; [|split].
  - by apply accordion_state.
  - by apply accordion_is_accordion.
  - by apply accordion_marker.
Qed.

Lemma on_ready_initializes_every_container_witness :
  Elem 4 ["data-js-accordion"]
       [ Elem 5 ["data-js-accordion-trigger"] [];
         Elem 6 ["data-js-accordion-content"] [] ]
    ∈ all_nodes (doc Scenes.nested_page)
  ∧ data_of (on_ready Scenes.nested_page) 4 (data_content_state config)
    = Str "collapsed"
  ∧ "is-accordion--collapsed" ∈ classes_of (on_ready Scenes.nested_page) 4.
Proof.
  assert (Elem 4 ["data-js-accordion"]
            [ Elem 5 ["data-js-accordion-trigger"] [];
              Elem 6 ["data-js-accordion-content"] [] ]
          ∈ all_nodes (doc Scenes.nested_page)) as Hin.
  { do 4 right. left. }
  destruct (on_ready_initializes_every_container Scenes.nested_page _ Hin)
    as (Hd & _ & Hc); [by left|].
  split; [exact Hin|]. split; [exact Hd|exact Hc].
Defined.

(** ** Triggers bound at document-ready and their containers *)

Lemma chain_to_in_nodes target e l :
  chain_to target e = Some l → ∀ x, x ∈ l → x ∈ all_nodes e.
Proof.
  revert l. induction e as [i a cs IH] using Node_induction. intros l.
  simpl. destruct (Nat.eqb i target).
  - intros [= <-] x Hx. apply list_elem_of_singleton in Hx as ->. by left.
  - destruct (first_some (chain_to target) cs) as [ch|] eqn:Ech; [|done].
    intros [= <-] x Hx. destruct (first_some_Some _ _ _ Ech) as (c & Hin & Hc).
    apply elem_of_app in Hx as [Hx|Hx].
    + right. rewrite Forall_forall in IH.
      specialize (IH c Hin ch Hc x Hx). unfold all_nodes in IH.
      simpl. apply list_elem_of_In, in_flat_map. exists c.
      split; [by apply list_elem_of_In|]. by apply list_elem_of_In.
    + apply list_elem_of_singleton in Hx as ->. by left.
Qed.

Lemma distinct_ids_inj d x y :
  distinct_ids d → x ∈ all_nodes d → y ∈ all_nodes d →
  node_id x = node_id y → x = y.
Proof.
  unfold distinct_ids. induction (all_nodes d) as [|a l IH]; simpl.
  - intros _ H. by apply elem_of_nil in H.
  - intros [Ha Hnd]%NoDup_cons Hx Hy Hid.
    apply elem_of_cons in Hx as [->|Hx]; apply elem_of_cons in Hy as [->|Hy].
    + done.
    + exfalso. apply Ha. rewrite Hid. apply list_elem_of_fmap. eauto.
    + exfalso. apply Ha. rewrite <- Hid. apply list_elem_of_fmap. eauto.
    + by apply IH.
Qed.

Lemma select_elem_of p sel n :
  n ∈ jQuery.select p sel ↔
  ∃ e, e ∈ all_nodes (doc p) ∧ node_id e = n ∧ matches sel e = true.
Proof.
  unfold jQuery.select. rewrite list_elem_of_fmap. split.
  - intros (e & -> & He). apply list_elem_of_In, filter_In in He as [Hin Hm].
    exists e. split; [by apply list_elem_of_In|done].
  - intros (e & Hin & <- & Hm). exists e. split; [done|].
    apply list_elem_of_In, filter_In. split; [by apply list_elem_of_In|done].
Qed.

(** In a document with distinct elements, an element found below selected
    roots has its nearest matching ancestor among the selected elements. *)
Lemma closest_of_found p sel sel' t :
  distinct_ids (doc p) →
  t ∈ jQuery.find p (jQuery.select p sel) sel' →
  ∃ c, jQuery.closest p t sel = [c] ∧ c ∈ jQuery.select p sel.
Proof.
  intros Hd Ht. apply find_elem_of in Ht as (_ & _ & _ & _ & r & Hr & Hanc).
  apply select_elem_of in Hr as (e & He & <- & Hm).
  unfold ancestor_ids, ancestors_or_self in Hanc.
  unfold jQuery.closest, ancestors_or_self.
  destruct (chain_to t (doc p)) as [chain|] eqn:Echain; simpl in *;
    [|by apply elem_of_nil in Hanc].
  apply list_elem_of_fmap in Hanc as (x & Hid & Hx).
  assert (x ∈ chain) as Hxc.
  { destruct chain; [by apply elem_of_nil in Hx|]. by right. }
  assert (x = e) as ->.
  { apply (distinct_ids_inj (doc p)); [done| |done|done].
    by eapply chain_to_in_nodes. }
  destruct (List.find (matches sel) chain) as [y|] eqn:Efind.
  - exists (node_id y). split; [done|].
    apply find_some in Efind as [Hy Hmy]. apply select_elem_of.
    exists y. split; [|done]. eapply chain_to_in_nodes; [done|].
    by apply list_elem_of_In.
  - exfalso. pose proof (find_none _ _ Efind e) as Hnone.
    rewrite Hnone in Hm; [done|]. by apply list_elem_of_In.
Qed.

Lemma config_getElement p t :
  getElement config p t = jQuery.closest p t "[data-js-accordion]".
Proof. reflexivity. Qed.

(** X19.  With the configuration of the source, in a document whose
    elements are distinct: every trigger the document-ready callback binds
    resolves, when clicked, to a container that the callback initialized.
    That container is collapsed after the callback, and the first run of
    the handler on the trigger makes it visible. *)
Theorem ready_triggers_resolve_to_initialized (p : Page) (t : nat) :
  distinct_ids (doc p) →
  t ∈ getTrigger config p (jQuery.select p "[data-js-accordion]") →
  ∃ c, getElement config (on_ready p) t = [c]
       ∧ c ∈ jQuery.select p "[data-js-accordion]"
       ∧ data_of (on_ready p) c (data_content_state config) = Str "collapsed"
       ∧ data_of (activate config t (on_ready p)) c (data_content_state config)
         = Str "visible".
Proof.
  intros Hd Ht.
  destruct (closest_of_found p "[data-js-accordion]" _ t Hd Ht)
    as (c & Hclosest & Hsel).
  unfold on_ready.
  set (q := accordion config (jQuery.select p "[data-js-accordion]") p).
  assert (doc q = doc p) as Hdoc by apply accordion_doc.
  assert (getElement config q t = [c]) as Hparent.
  { rewrite (getElement_doc config q p t Hdoc).
    rewrite config_getElement. exact Hclosest. }
  assert (data_of q c (data_content_state config) = Str "collapsed")
    as Hstate.
  { apply accordion_state. exact Hsel. }
  exists c. split; [done|]. split; [done|]. split; [done|].
  unfold activate.
  rewrite (click_on_collapsed config eq_refl q t (mkEvent false) c
             Hparent Hstate).
  cbn [page_after]. apply (setVisible_state config); [done|by left].
Qed.

Lemma ready_triggers_resolve_to_initialized_witness :
  distinct_ids (doc Scenes.nested_page)
  ∧ 5 ∈ getTrigger config Scenes.nested_page
          (jQuery.select Scenes.nested_page "[data-js-accordion]")
  ∧ ∃ c, getElement config (on_ready Scenes.nested_page) 5 = [c]
         ∧ c ∈ jQuery.select Scenes.nested_page "[data-js-accordion]"
         ∧ data_of (on_ready Scenes.nested_page) c (data_content_state config)
           = Str "collapsed"
         ∧ data_of (activate config 5 (on_ready Scenes.nested_page)) c
             (data_content_state config) = Str "visible".
Proof.
  assert (distinct_ids (doc Scenes.nested_page)) as Hd.
  { apply (bool_decide_unpack _). vm_compute. exact I. }
  assert (5 ∈ getTrigger config Scenes.nested_page
                (jQuery.select Scenes.nested_page "[data-js-accordion]"))
    as H5 by (right; left).
  split; [exact Hd|]. split; [exact H5|].
  exact (ready_triggers_resolve_to_initialized Scenes.nested_page 5 Hd H5).
Defined.
